(** * hn-client: query construction and result normalisation

    A shallow embedding of the search layer of [j3lte/hn-client]
    ([src/algolia/helpers.ts], [src/algolia/objects.ts],
    [src/algolia/mod.ts] and the facade class [HackerNewsClient]).

    Conventions of the embedding:
    - a JavaScript string is a [string] of bytes (its UTF-8 encoding);
    - a JavaScript number that the code uses as an integer (page numbers,
      hit counts, Unix time stamps, HTTP status codes) is a [Z]; all such
      values stay below 1e21 in absolute value, where
      [Number.prototype.toString] prints plain decimal digits;
    - an optional property ([p?: T]) is an [option T], [None] being
      [undefined];
    - code that awaits the network, reads the clock or writes to the console
      runs in the monad [M] over an explicit [World];
    - a [throw] (or a rejected promise) is the [Throw] outcome. *)

From Stdlib Require Import ZArith List String Ascii Bool Lia DecimalString DecimalZ.
Import ListNotations.

#[local] Open Scope string_scope.
#[local] Open Scope Z_scope.

(* ================================================================== *)
(** ** JavaScript primitives used by the code *)

(** [Number.prototype.toString()] on an integer. *)
Definition Number_toString (n : Z) : string :=
  NilZero.string_of_int (Z.to_int n).

(** [Array.prototype.join(sep)] on an array of strings. *)
Definition Array_join (sep : string) (xs : list string) : string :=
  String.concat sep xs.

(** [Array.prototype.includes(x)] on an array of strings. *)
Definition Array_includes (xs : list string) (x : string) : bool :=
  existsb (String.eqb x) xs.

(** Truthiness of an optional string: [undefined] and [""] are falsy. *)
Definition truthy (s : option string) : bool :=
  match s with
  | Some (String _ _) => true
  | _ => false
  end.

(** [a ?? b] *)
Definition nullish {A : Type} (a : option A) (b : A) : A :=
  match a with
  | Some x => x
  | None => b
  end.

(** How a template literal prints an optional number. *)
Definition template_number (n : option Z) : string :=
  match n with
  | Some z => Number_toString z
  | None => "undefined"
  end.

(** Completion of a JavaScript computation. *)
Inductive JsError : Type :=
| Error (message : string)
| TypeError (message : string)
| SyntaxError (message : string).

Inductive Outcome (A : Type) : Type :=
| Normal (a : A)
| Throw (e : JsError).
Arguments Normal {A} a.
Arguments Throw {A} e.

(* ------------------------------------------------------------------ *)
(** *** [URLSearchParams] *)

(** The entry list of a [URLSearchParams] object, in insertion order. *)
Definition URLSearchParams : Type := list (string * string).

Definition URLSearchParams_new : URLSearchParams := [].

Definition URLSearchParams_has (sp : URLSearchParams) (name : string) : bool :=
  existsb (fun e => String.eqb (fst e) name) sp.

(** The value of the first entry called [name]. *)
Fixpoint URLSearchParams_get (sp : URLSearchParams) (name : string)
  : option string :=
  match sp with
  | [] => None
  | (k, v) :: rest =>
      if String.eqb k name then Some v else URLSearchParams_get rest name
  end.

(** [set]: the first entry called [name] takes the value, the other entries
    of that name are removed; with no such entry, one is appended. *)
Fixpoint URLSearchParams_replace (sp : URLSearchParams) (name value : string)
  : URLSearchParams :=
  match sp with
  | [] => []
  | (k, v) :: rest =>
      if String.eqb k name
      then (k, value) :: filter (fun e => negb (String.eqb (fst e) name)) rest
      else (k, v) :: URLSearchParams_replace rest name value
  end.

Definition URLSearchParams_set (sp : URLSearchParams) (name value : string)
  : URLSearchParams :=
  if URLSearchParams_has sp name
  then URLSearchParams_replace sp name value
  else (sp ++ [(name, value)])%list.

(** The [application/x-www-form-urlencoded] byte serialiser: ASCII letters,
    digits and [*-._] stay, a space becomes [+], every other byte becomes
    [%XX] in upper-case hexadecimal. *)
Definition hex_digit (n : nat) : ascii :=
  match n with
  | 0%nat => "0" | 1%nat => "1" | 2%nat => "2" | 3%nat => "3"
  | 4%nat => "4" | 5%nat => "5" | 6%nat => "6" | 7%nat => "7"
  | 8%nat => "8" | 9%nat => "9" | 10%nat => "A" | 11%nat => "B"
  | 12%nat => "C" | 13%nat => "D" | 14%nat => "E" | _ => "F"
  end%char.

Definition urlencoded_safe (c : ascii) : bool :=
  let n := nat_of_ascii c in
  ((48 <=? n) && (n <=? 57))%nat        (* 0-9 *)
  || ((65 <=? n) && (n <=? 90))%nat     (* A-Z *)
  || ((97 <=? n) && (n <=? 122))%nat    (* a-z *)
  || (n =? 42)%nat || (n =? 45)%nat     (* * - *)
  || (n =? 46)%nat || (n =? 95)%nat.    (* . _ *)

Definition urlencoded_byte (c : ascii) : string :=
  if urlencoded_safe c then String c EmptyString
  else if Ascii.eqb c " " then "+"
  else
    let n := nat_of_ascii c in
    String "%" (String (hex_digit (n / 16)) (String (hex_digit (n mod 16)) EmptyString)).

Fixpoint urlencoded_serialize (s : string) : string :=
  match s with
  | EmptyString => EmptyString
  | String c rest => urlencoded_byte c ++ urlencoded_serialize rest
  end.

(** [URLSearchParams.prototype.toString()] *)
Definition URLSearchParams_toString (sp : URLSearchParams) : string :=
  Array_join "&"
    (map (fun e => urlencoded_serialize (fst e) ++ "=" ++ urlencoded_serialize (snd e)) sp).

(** The [application/x-www-form-urlencoded] parser, by which the receiver of
    a request reads its query: the string is split at every [&], each piece
    that is not empty is cut at its first [=], and in both halves a [+] is a
    space and [%XX] is the byte with that hexadecimal code. *)
Definition hex_value (c : ascii) : option nat :=
  let n := nat_of_ascii c in
  if ((48 <=? n) && (n <=? 57))%nat then Some (n - 48)%nat
  else if ((65 <=? n) && (n <=? 70))%nat then Some (n - 55)%nat
  else if ((97 <=? n) && (n <=? 102))%nat then Some (n - 87)%nat
  else None.

Fixpoint urlencoded_decode (s : string) : string :=
  match s with
  | EmptyString => EmptyString
  | String c r =>
      if Ascii.eqb c "+" then String " " (urlencoded_decode r)
      else if Ascii.eqb c "%" then
        match r with
        | String h (String l r') =>
            match hex_value h, hex_value l with
            | Some a, Some b =>
                String (ascii_of_nat (16 * a + b)) (urlencoded_decode r')
            | _, _ => String c (urlencoded_decode r)
            end
        | _ => String c (urlencoded_decode r)
        end
      else String c (urlencoded_decode r)
  end.

(** The pieces of [s] between the occurrences of [sep]. *)
Fixpoint String_split (sep : ascii) (s : string) : list string :=
  match s with
  | EmptyString => [EmptyString]
  | String c r =>
      if Ascii.eqb c sep then EmptyString :: String_split sep r
      else
        match String_split sep r with
        | p :: ps => String c p :: ps
        | [] => [String c EmptyString]
        end
  end.

(** [s] before and after its first [sep]; all of [s] and the empty string
    when [sep] does not occur. *)
Fixpoint String_cut (sep : ascii) (s : string) : string * string :=
  match s with
  | EmptyString => (EmptyString, EmptyString)
  | String c r =>
      if Ascii.eqb c sep then (EmptyString, r)
      else let (a, b) := String_cut sep r in (String c a, b)
  end.

(** [new URLSearchParams(s)] *)
Definition URLSearchParams_parse (s : string) : URLSearchParams :=
  map (fun piece =>
         let (n, v) := String_cut "=" piece in
         (urlencoded_decode n, urlencoded_decode v))
      (filter (fun piece => negb (String.eqb piece "")) (String_split "&" s)).

(** [sep] does not occur in [s]. *)
Fixpoint String_free (sep : ascii) (s : string) : bool :=
  match s with
  | EmptyString => true
  | String c r => negb (Ascii.eqb c sep) && String_free sep r
  end.

(* ================================================================== *)
(** ** [algolia/types.ts] *)

(** [Tag] and [NumericFilter] are template-literal string types. *)
Definition Tag : Type := string.
Definition NumericFilter : Type := string.

(* ================================================================== *)
(** ** [algolia/helpers.ts] *)

Definition createAuthorTag (username : string) : Tag := "author_" ++ username.
Definition createStoryTag (storyId : Z) : Tag := "story_" ++ Number_toString storyId.

Module Tags.
Definition STORY : Tag := "story".
Definition COMMENT : Tag := "comment".
Definition author : string -> Tag := createAuthorTag.
Definition story : Z -> Tag := createStoryTag.
Definition POLL : Tag := "poll".
Definition POLLOPT : Tag := "pollopt".
Definition SHOW_HN : Tag := "show_hn".
Definition ASK_HN : Tag := "ask_hn".
Definition FRONT_PAGE : Tag := "front_page".
Definition JOB : Tag := "job".
End Tags.

Module OrTags.
Record t : Type := mk { tags : list Tag }.

(** [new OrTags(tags)]: the constructor stores its argument. *)
Definition new (tags : list Tag) : Outcome t := Normal (mk tags).

(** [OrTags.from(tags)] *)
Definition from (tags : list Tag) : Outcome t := new tags.

Definition toString (o : t) : string := "(" ++ Array_join "," (tags o) ++ ")".
End OrTags.

(** An element of [SearchParams.tags]: [Tag | OrTags]. *)
Inductive TagItem : Type :=
| ATag (tag : Tag)
| AnOrTags (o : OrTags.t).

(** The string [Array.prototype.join] makes of an element. *)
Definition TagItem_toString (x : TagItem) : string :=
  match x with
  | ATag tag => tag
  | AnOrTags o => OrTags.toString o
  end.

Record SearchParams : Type := mkSearchParams {
  query : option string;
  tags : option (list TagItem);
  numericFilters : option (list NumericFilter);
  page : option Z;
  hitsPerPage : option Z;
  sortByDate : option bool;
  optionalWords : option (list string);
  filters : option string;
  restrictSearchableAttributes : option (list string)
}.

(** [params = {}] *)
Definition SearchParams_empty : SearchParams :=
  mkSearchParams None None None None None None None None None.

(** [a && a.length > 0] *)
Definition nonempty {A : Type} (a : option (list A)) : bool :=
  match a with
  | Some (_ :: _) => true
  | _ => false
  end.

(** The [URLSearchParams] object of [buildSearchParams] when it returns. *)
Definition buildSearchParams_entries (params : SearchParams) : URLSearchParams :=
  let searchParams := URLSearchParams_new in
  let searchParams :=
    if truthy (query params)
    then URLSearchParams_set searchParams "query" (nullish (query params) "")
    else searchParams in
  let searchParams :=
    if nonempty (tags params)
    then URLSearchParams_set searchParams "tags"
           (Array_join "," (map TagItem_toString (nullish (tags params) [])))
    else searchParams in
  let searchParams :=
    if nonempty (numericFilters params)
    then URLSearchParams_set searchParams "numericFilters"
           (Array_join "," (nullish (numericFilters params) []))
    else searchParams in
  let searchParams :=
    if nonempty (optionalWords params)
    then URLSearchParams_set searchParams "optionalWords"
           (Array_join " " (nullish (optionalWords params) []))
    else searchParams in
  let searchParams :=
    match page params with
    | Some p => URLSearchParams_set searchParams "page" (Number_toString p)
    | None => searchParams
    end in
  let searchParams :=
    if truthy (filters params)
    then URLSearchParams_set searchParams "filters" (nullish (filters params) "")
    else searchParams in
  let searchParams :=
    match hitsPerPage params with
    | Some h => URLSearchParams_set searchParams "hitsPerPage" (Number_toString h)
    | None => searchParams
    end in
  let searchParams :=
    if nonempty (restrictSearchableAttributes params)
    then URLSearchParams_set searchParams "restrictSearchableAttributes"
           (Array_join "," (nullish (restrictSearchableAttributes params) []))
    else URLSearchParams_set searchParams "restrictSearchableAttributes" "title" in
  searchParams.

Definition buildSearchParams (params : SearchParams) : string :=
  URLSearchParams_toString (buildSearchParams_entries params).

Record HighlightResult : Type := mkHighlightResult {
  matchLevel : string;
  matchedWords : list string;
  value : string;
  fullyHighlighted : option bool
}.

(** A [Record<string, T>] with its own enumerable properties in order. *)
Definition JsRecord (T : Type) : Type := list (string * T).

Definition filterHighlightedFields (highlights : JsRecord HighlightResult)
  : JsRecord HighlightResult :=
  filter (fun e => negb (String.eqb (matchLevel (snd e)) "none")) highlights.

(** The fields of a raw hit besides [_highlightResult] and [_tags]: the base
    [Hit] fields and those of [Story], [Comment], [Poll], [PollOption] and
    [Job]; a field a record does not carry is [None]. *)
Record HitData : Type := mkHitData {
  author : string;
  created_at : option string;
  created_at_i : Z;
  objectID : string;
  updated_at : string;
  children : option (list Z);
  parent_id : option Z;
  points : option Z;
  story_id : option Z;
  story_title : option string;
  comment_text : option string;
  num_comments : option Z;
  story_text : option string;
  title : option string;
  url : option string;
  parts : option (list Z);
  job_text : option string
}.

(** A raw record of the [hits] array. *)
Record Hit : Type := mkHit {
  _highlightResult : JsRecord HighlightResult;
  _tags : list string;
  rest : HitData
}.

(** The envelope of a search answer (the fields the client reads). *)
Record AlgoliaResponse : Type := mkAlgoliaResponse {
  hits : list Hit;
  res_hitsPerPage : Z;
  nbHits : Z;
  nbPages : Z;
  res_page : Z;
  processingTimeMS : Z;
  serverTimeMS : Z
}.

(* ================================================================== *)
(** ** The world outside: network, clock and console *)

Record RequestInit : Type := mkRequestInit {
  headers : option (JsRecord string)
}.

(** [init = {}] *)
Definition RequestInit_empty : RequestInit := mkRequestInit None.

(** One call of [fetch]. *)
Record Request : Type := mkRequest {
  request_url : string;
  request_init : RequestInit
}.

(** What [fetch] resolves to; [json] is the parsed body, [None] when the
    body is not JSON. *)
Record Response : Type := mkResponse {
  ok : bool;
  status : Z;
  statusText : string;
  json : option AlgoliaResponse
}.

Inductive FetchResult : Type :=
| NetworkFailure
| Responded (r : Response).

(** [clock] is what [Date.now()] returns (milliseconds); [pending] are the
    answers the network will give to the calls of [fetch] to come, in order;
    [requests] are the calls of [fetch] made so far; [console] are the lines
    written by [console.log]. *)
Record World : Type := mkWorld {
  clock : Z;
  pending : list FetchResult;
  requests : list Request;
  console : list string
}.

Definition M (A : Type) : Type := World -> Outcome A * World.

Definition ret {A : Type} (a : A) : M A := fun w => (Normal a, w).

Definition throw {A : Type} (e : JsError) : M A := fun w => (Throw e, w).

Definition bind {A B : Type} (m : M A) (k : A -> M B) : M B :=
  fun w =>
    match m w with
    | (Normal a, w') => k a w'
    | (Throw e, w') => (Throw e, w')
    end.

Notation "x <- m ;; k" := (bind m (fun x => k))
  (at level 61, m at next level, right associativity).
Notation "m ;; k" := (bind m (fun _ => k))
  (at level 61, right associativity).

Definition when (b : bool) (m : M unit) : M unit :=
  if b then m else ret tt.

Definition console_log (line : string) : M unit :=
  fun w =>
    (Normal tt, mkWorld (clock w) (pending w) (requests w) (console w ++ [line])).

Definition Date_now : M Z := fun w => (Normal (clock w), w).

(** A completion that is already known, as a computation. *)
Definition lift {A : Type} (o : Outcome A) : M A := fun w => (o, w).

(** [fetch(url, init)]: the call is recorded and takes the next answer of the
    network; with no answer the promise is rejected. *)
Definition fetch (url : string) (init : RequestInit) : M Response :=
  fun w =>
    let w' := mkWorld (clock w) (tl (pending w))
                (requests w ++ [mkRequest url init]) (console w) in
    match pending w with
    | Responded r :: _ => (Normal r, w')
    | _ => (Throw (TypeError "fetch failed"), w')
    end.

(** [response.json()] *)
Definition Response_json (response : Response) : M AlgoliaResponse :=
  match json response with
  | Some res => ret res
  | None => throw (SyntaxError "Unexpected token in JSON")
  end.

(** [array.map(f)] for an [f] with effects. *)
Fixpoint Array_map {A B : Type} (f : A -> M B) (xs : list A) : M (list B) :=
  match xs with
  | [] => ret []
  | x :: xs' =>
      y <- f x ;;
      ys <- Array_map f xs' ;;
      ret (y :: ys)
  end.

(** [obj[key] = v] on a record: an own property keeps its place. *)
Fixpoint JsRecord_set {T : Type} (o : JsRecord T) (key : string) (v : T)
  : JsRecord T :=
  match o with
  | [] => [(key, v)]
  | (k, x) :: o' =>
      if String.eqb k key then (k, v) :: o' else (k, x) :: JsRecord_set o' key v
  end.

(* ================================================================== *)
(** ** [algolia/objects.ts] *)

(** A [Date] object: a time value in milliseconds, or the invalid date. *)
Inductive JsDate : Type :=
| ValidDate (ms : Z)
| InvalidDate.

Module Objects.

(** The raw [url] field, which the getter [url] of [StoryObject] hides. *)
Definition HitData_url : HitData -> option string := url.

Inductive ObjectClass : Type :=
| HitObject
| StoryObject
| CommentObject
| PollObject
| PollOptionObject
| JobObject.

(** An instance of [HitObject] or of one of its subclasses. *)
Record t : Type := mk {
  class : ObjectClass;
  debug : bool;
  highlight : JsRecord HighlightResult;
  tags : list string;
  data : HitData
}.

Definition getPermaLink (objectID : string) : string :=
  "https://news.ycombinator.com/item?id=" ++ objectID.

(** [s.replace(/<p>|<\/p>/g, "")] *)
Fixpoint strip_paragraphs (s : string) : string :=
  match s with
  | String "<" (String "p" (String ">" r)) => strip_paragraphs r
  | String "<" (String "/" (String "p" (String ">" r))) => strip_paragraphs r
  | String c r => String c (strip_paragraphs r)
  | EmptyString => EmptyString
  end.

Section Libraries.

(** [parseISO] of date-fns and [unescape] of [@std/html] (applied with the
    named-entity list) are library functions. *)
Variable parseISO : string -> JsDate.
Variable unescape : string -> string.

Definition unescapeHtml (text : string) : string :=
  strip_paragraphs (unescape text).

(** [get type()] with the overrides of the subclasses. *)
Definition type (o : t) : string :=
  match class o with
  | HitObject => "hit"
  | StoryObject => "story"
  | CommentObject => "comment"
  | PollObject => "poll"
  | PollOptionObject => "pollopt"
  | JobObject => "job"
  end.

Definition permaLink (o : t) : string := getPermaLink (objectID (data o)).

(** [get createdAt()]; [None] is [null]. *)
Definition createdAt (o : t) : option JsDate :=
  if truthy (created_at (data o))
  then Some (parseISO (nullish (created_at (data o)) ""))
  else None.

Definition reportCreateDebug (o : t) (type : string) : M unit :=
  when (debug o) (console_log ("[DEBUG OBJ] " ++ type ++ " " ++ objectID (data o))).

(** The constructor of the base class: [new HitObject(hit, debug)]. *)
Definition HitObject_new (hit : Hit) (debug : bool) : M t :=
  ret (mk HitObject debug (filterHighlightedFields (_highlightResult hit))
         (_tags hit) (rest hit)).

(** The constructor of a subclass: [super(hit, debug)], the assignments of
    [tags] and [data], and the debug report. *)
Definition subclass_new (c : ObjectClass) (name : string) (hit : Hit) (debug : bool)
  : M t :=
  base <- HitObject_new hit debug ;;
  let this := mk c (Objects.debug base) (highlight base) (_tags hit) (rest hit) in
  reportCreateDebug this name ;;
  ret this.

Definition StoryObject_new : Hit -> bool -> M t := subclass_new StoryObject "Story".
Definition CommentObject_new : Hit -> bool -> M t := subclass_new CommentObject "Comment".
Definition PollObject_new : Hit -> bool -> M t := subclass_new PollObject "Poll".
Definition PollOptionObject_new : Hit -> bool -> M t :=
  subclass_new PollOptionObject "Poll Option".
Definition JobObject_new : Hit -> bool -> M t := subclass_new JobObject "Job".

(** [StoryObject] *)
Definition isSelfpost (o : t) : bool := truthy (story_text (data o)).
Definition hasExternalUrl (o : t) : bool := truthy (HitData_url (data o)).
Definition url (o : t) : string := nullish (HitData_url (data o)) (permaLink o).

(** [CommentObject] *)
Definition isRootComment (o : t) : bool :=
  match parent_id (data o), story_id (data o) with
  | Some p, Some s => p =? s
  | None, None => true
  | _, _ => false
  end.

Definition commentText (o : t) : string :=
  unescapeHtml (nullish (comment_text (data o)) "").

End Libraries.
End Objects.

(* ================================================================== *)
(** ** [algolia/mod.ts] *)

Module HNSearchClient.

Record HNSearchClientOptions : Type := mkOptions {
  opt_debug : option bool;
  opt_objDebug : option bool;
  opt_baseUrl : option string
}.

Record t : Type := mk {
  baseUrl : string;
  debug : bool;
  objDebug : bool
}.

Definition new (options : HNSearchClientOptions) : t :=
  mk (nullish (opt_baseUrl options) "https://hn.algolia.com/api/v1")
     (nullish (opt_debug options) false)
     (nullish (opt_objDebug options) false).

Record Meta : Type := mkMeta {
  meta_hitsPerPage : Z;
  numberOfHits : Z;
  numberOfPages : Z;
  currentPage : Z;
  timeMsProcessing : Z;
  timeMsServer : Z
}.

Record HNSearchClientSearchResponse : Type := mkSearchResponse {
  meta : Meta;
  data : list Objects.t
}.

(** The object [searchParams] of [search]: the caller's parameters with
    [sortByDate] and [hitsPerPage] filled in. *)
Definition searchParams (params : SearchParams) : SearchParams :=
  mkSearchParams
    (query params)
    (tags params)
    (numericFilters params)
    (page params)
    (Some (match hitsPerPage params with
           | None => 100
           | Some h => if h <? 0 then 1 else if h >? 100 then 100 else h
           end))
    (Some (match sortByDate params with
           | None => true
           | Some b => b
           end))
    (optionalWords params)
    (filters params)
    (restrictSearchableAttributes params).

Definition endpoint (searchParams : SearchParams) : string :=
  if nullish (sortByDate searchParams) false then "search_by_date" else "search".

(** The request URL of [search]. *)
Definition url (this : t) (params : SearchParams) : string :=
  baseUrl this ++ "/" ++ endpoint (searchParams params) ++ "?"
  ++ buildSearchParams (searchParams params).

(** The callback of [res.hits.map]. *)
Definition hit_to_object (this : t) (hit : Hit) : M Objects.t :=
  if Array_includes (_tags hit) Tags.STORY then
    Objects.StoryObject_new hit (objDebug this)
  else if Array_includes (_tags hit) Tags.COMMENT then
    Objects.CommentObject_new hit (objDebug this)
  else if Array_includes (_tags hit) Tags.POLL then
    Objects.PollObject_new hit (objDebug this)
  else if Array_includes (_tags hit) Tags.POLLOPT then
    Objects.PollOptionObject_new hit (objDebug this)
  else if Array_includes (_tags hit) Tags.JOB then
    Objects.JobObject_new hit (objDebug this)
  else
    Objects.HitObject_new hit (objDebug this).

Section Version.

(** [VERSION] of [util/index.ts]. *)
Variable VERSION : string.

Definition userAgent : string :=
  "hn-client/" ++ VERSION ++ " (+https://github.com/j3lte/hn-client)".

(** [init] as [search] hands it to [fetch]. *)
Definition with_userAgent (init : RequestInit) : RequestInit :=
  mkRequestInit (Some (JsRecord_set (nullish (headers init) []) "User-Agent" userAgent)).

Definition search (this : t) (params : SearchParams) (init : RequestInit)
  : M HNSearchClientSearchResponse :=
  let url := url this params in
  when (debug this) (console_log ("[DEBUG REQ] " ++ url)) ;;
  response <- fetch url (with_userAgent init) ;;
  if negb (ok response) then
    when (debug this)
      (console_log ("[DEBUG RES ERR] " ++ Number_toString (status response)
                    ++ " " ++ statusText response)) ;;
    throw (Error ("HTTP error! status: " ++ Number_toString (status response)))
  else
    res <- Response_json response ;;
    when (debug this)
      (console_log ("[DEBUG RES] " ++ Number_toString (nbHits res)
                    ++ "|" ++ Number_toString (nbPages res)
                    ++ "|" ++ Number_toString (res_page res)
                    ++ "|" ++ Number_toString (res_hitsPerPage res)
                    ++ " h/pp, " ++ Number_toString (processingTimeMS res)
                    ++ "ms processing, " ++ Number_toString (serverTimeMS res)
                    ++ "ms server")) ;;
    data <- Array_map (hit_to_object this) (hits res) ;;
    ret (mkSearchResponse
           (mkMeta (res_hitsPerPage res) (nbHits res) (nbPages res) (res_page res)
              (processingTimeMS res) (serverTimeMS res))
           data).

End Version.
End HNSearchClient.

(* ================================================================== *)
(** ** The facade class [HackerNewsClient] *)

Module HackerNewsClient.

Record t : Type := mk {
  searchClient : HNSearchClient.t
}.

Definition new (options : HNSearchClient.HNSearchClientOptions) : t :=
  mk (HNSearchClient.new options).

(** [{ ...params, tags, numericFilters }] *)
Definition frontPage_params (params : SearchParams) (oneWeekAgo : Z) : SearchParams :=
  mkSearchParams
    (query params)
    (Some [ATag Tags.FRONT_PAGE; ATag Tags.STORY])
    (Some ["created_at_i>=" ++ Number_toString oneWeekAgo])
    (page params)
    (hitsPerPage params)
    (sortByDate params)
    (optionalWords params)
    (filters params)
    (restrictSearchableAttributes params).

(** The first request of [whoIsHiring]. *)
Definition whoIsHiring_story_params : SearchParams :=
  mkSearchParams None
    (Some [ATag Tags.STORY; ATag (Tags.author "whoishiring")])
    None None (Some 1) None None None None.

(** [{ ...params, tags, filters, hitsPerPage }] *)
Definition whoIsHiring_comments_params (params : SearchParams) (story : Objects.t)
  : SearchParams :=
  mkSearchParams
    (query params)
    (Some [ATag Tags.COMMENT])
    (numericFilters params)
    (page params)
    (Some 100)
    (sortByDate params)
    (optionalWords params)
    (Some ("parent_id=" ++ template_number (story_id (Objects.data story))))
    (restrictSearchableAttributes params).

(** [{ ...params, tags }] *)
Definition with_tags (params : SearchParams) (tags : list TagItem) : SearchParams :=
  mkSearchParams
    (query params)
    (Some tags)
    (numericFilters params)
    (page params)
    (hitsPerPage params)
    (sortByDate params)
    (optionalWords params)
    (filters params)
    (restrictSearchableAttributes params).

(** The parameter object of [commentsToStory]: search parameters and an
    optional [userName]. *)
Record CommentsToStoryParams : Type := mkCommentsToStoryParams {
  userName : option string;
  search_params : SearchParams
}.

(** The array [tags] of [commentsToStory] when it is handed to [search]. *)
Definition commentsToStory_tags (storyId : Z) (userName : option string)
  : list TagItem :=
  let tags := [ATag Tags.COMMENT; ATag (Tags.story storyId)] in
  if truthy userName
  then (tags ++ [ATag (Tags.author (nullish userName ""))])%list
  else tags.

Section Version.

Variable VERSION : string.

Definition search (this : t) (params : SearchParams) (init : RequestInit)
  : M HNSearchClient.HNSearchClientSearchResponse :=
  HNSearchClient.search VERSION (searchClient this) params init.

Definition frontPage (this : t) (params : SearchParams) (init : RequestInit)
  : M HNSearchClient.HNSearchClientSearchResponse :=
  now <- Date_now ;;
  let oneWeekAgo := now / 1000 - 7 * 24 * 60 * 60 in
  HNSearchClient.search VERSION (searchClient this)
    (frontPage_params params oneWeekAgo) init.

Definition whoIsHiring (this : t) (params : SearchParams) (init : RequestInit)
  : M HNSearchClient.HNSearchClientSearchResponse :=
  res <- HNSearchClient.search VERSION (searchClient this)
           whoIsHiring_story_params RequestInit_empty ;;
  match HNSearchClient.data res with
  | [] => ret res
  | story :: _ =>
      HNSearchClient.search VERSION (searchClient this)
        (whoIsHiring_comments_params params story) init
  end.

Definition newest (this : t) (params : SearchParams) (init : RequestInit)
  : M HNSearchClient.HNSearchClientSearchResponse :=
  group <- lift (OrTags.from [Tags.STORY; Tags.POLL]) ;;
  HNSearchClient.search VERSION (searchClient this)
    (with_tags params [AnOrTags group]) init.

Definition comments (this : t) (params : SearchParams) (init : RequestInit)
  : M HNSearchClient.HNSearchClientSearchResponse :=
  HNSearchClient.search VERSION (searchClient this)
    (with_tags params [ATag Tags.COMMENT]) init.

Definition askHN (this : t) (params : SearchParams) (init : RequestInit)
  : M HNSearchClient.HNSearchClientSearchResponse :=
  HNSearchClient.search VERSION (searchClient this)
    (with_tags params [ATag Tags.ASK_HN]) init.

Definition showHN (this : t) (params : SearchParams) (init : RequestInit)
  : M HNSearchClient.HNSearchClientSearchResponse :=
  HNSearchClient.search VERSION (searchClient this)
    (with_tags params [ATag Tags.SHOW_HN]) init.

Definition polls (this : t) (params : SearchParams) (init : RequestInit)
  : M HNSearchClient.HNSearchClientSearchResponse :=
  HNSearchClient.search VERSION (searchClient this)
    (with_tags params [ATag Tags.POLL]) init.

Definition jobs (this : t) (params : SearchParams) (init : RequestInit)
  : M HNSearchClient.HNSearchClientSearchResponse :=
  HNSearchClient.search VERSION (searchClient this)
    (with_tags params [ATag Tags.JOB]) init.

Definition userAll (this : t) (userName : string) (params : SearchParams)
           (init : RequestInit)
  : M HNSearchClient.HNSearchClientSearchResponse :=
  group <- lift (OrTags.from [Tags.STORY; Tags.COMMENT; Tags.POLL]) ;;
  HNSearchClient.search VERSION (searchClient this)
    (with_tags params [AnOrTags group; ATag (Tags.author userName)]) init.

Definition userThreads (this : t) (userName : string) (params : SearchParams)
           (init : RequestInit)
  : M HNSearchClient.HNSearchClientSearchResponse :=
  HNSearchClient.search VERSION (searchClient this)
    (with_tags params [ATag Tags.COMMENT; ATag (Tags.author userName)]) init.

Definition userSubmitted (this : t) (userName : string) (params : SearchParams)
           (init : RequestInit)
  : M HNSearchClient.HNSearchClientSearchResponse :=
  group <- lift (OrTags.from [Tags.STORY; Tags.POLL]) ;;
  HNSearchClient.search VERSION (searchClient this)
    (with_tags params [AnOrTags group; ATag (Tags.author userName)]) init.

Definition commentsToStory (this : t) (storyId : Z) (params : CommentsToStoryParams)
           (init : RequestInit)
  : M HNSearchClient.HNSearchClientSearchResponse :=
  HNSearchClient.search VERSION (searchClient this)
    (with_tags (search_params params)
       (commentsToStory_tags storyId (HackerNewsClient.userName params)))
    init.

End Version.
End HackerNewsClient.

(* ================================================================== *)
(** ** Definitions used to state the properties *)

(** The value [buildSearchParams] gives to [restrictSearchableAttributes]. *)
Definition restrictSearchableAttributes_value (params : SearchParams) : string :=
  match restrictSearchableAttributes params with
  | Some (a :: l) => Array_join "," (a :: l)
  | _ => "title"
  end.

(** The [hitsPerPage] that [search] computes from the caller's. *)
Definition effective_hitsPerPage (params : SearchParams) : Z :=
  nullish (hitsPerPage (HNSearchClient.searchParams params)) 0.

(** [{ ...params, hitsPerPage }] *)
Definition with_hitsPerPage (params : SearchParams) (h : option Z) : SearchParams :=
  mkSearchParams (query params) (tags params) (numericFilters params) (page params)
    h (sortByDate params) (optionalWords params) (filters params)
    (restrictSearchableAttributes params).

(** [{ ...params, numericFilters }] *)
Definition with_numericFilters (params : SearchParams) (nf : option (list NumericFilter))
  : SearchParams :=
  mkSearchParams (query params) (tags params) nf (page params)
    (hitsPerPage params) (sortByDate params) (optionalWords params) (filters params)
    (restrictSearchableAttributes params).

(** The number of entries of a [URLSearchParams] object called [name]. *)
Definition URLSearchParams_count (sp : URLSearchParams) (name : string) : nat :=
  List.length (filter (fun e => String.eqb (fst e) name) sp).

(** The step from [w] to [w'] made no request and left the clock alone. *)
Definition same_network (w w' : World) : Prop :=
  clock w' = clock w /\ pending w' = pending w /\ requests w' = requests w.

(** [o] is an object built from the raw record [hit] by a client whose
    [objDebug] is [d]. *)
Definition object_of_hit (d : bool) (hit : Hit) (o : Objects.t) : Prop :=
  Objects.debug o = d
  /\ Objects.highlight o = filterHighlightedFields (_highlightResult hit)
  /\ Objects.tags o = _tags hit
  /\ Objects.data o = rest hit.

(** The [meta] of a search response, from the envelope. *)
Definition meta_of (res : AlgoliaResponse) : HNSearchClient.Meta :=
  HNSearchClient.mkMeta (res_hitsPerPage res) (nbHits res) (nbPages res)
    (res_page res) (processingTimeMS res) (serverTimeMS res).

(** Two parameter objects that differ at most in [numericFilters]. *)
Definition agree_but_numericFilters (p q : SearchParams) : Prop :=
  query p = query q /\ tags p = tags q /\ page p = page q
  /\ hitsPerPage p = hitsPerPage q /\ sortByDate p = sortByDate q
  /\ optionalWords p = optionalWords q /\ filters p = filters q
  /\ restrictSearchableAttributes p = restrictSearchableAttributes q.

(** A decoder of the entities [&amp;], [&lt;] and [&gt;], used to run the
    accessors on examples. *)
Fixpoint unescape_basic (s : string) : string :=
  match s with
  | String "&" (String "a" (String "m" (String "p" (String ";" r)))) =>
      String "&" (unescape_basic r)
  | String "&" (String "l" (String "t" (String ";" r))) =>
      String "<" (unescape_basic r)
  | String "&" (String "g" (String "t" (String ";" r))) =>
      String ">" (unescape_basic r)
  | String c r => String c (unescape_basic r)
  | EmptyString => EmptyString
  end.


(** The keys that [buildSearchParams] can set, in the order of its
    statements. *)
Definition buildSearchParams_keys : list string :=
  ["query"; "tags"; "numericFilters"; "optionalWords"; "page"; "filters";
   "hitsPerPage"; "restrictSearchableAttributes"].

(** [xs] is [ys] with some elements left out. *)
Fixpoint is_subsequence (xs ys : list string) : bool :=
  match xs, ys with
  | [], _ => true
  | _ :: _, [] => false
  | x :: xs', y :: ys' =>
      if String.eqb x y then is_subsequence xs' ys' else is_subsequence xs ys'
  end.

(** The five tags that [search] looks for in a raw record. *)
Definition type_tags : list string :=
  [Tags.STORY; Tags.COMMENT; Tags.POLL; Tags.POLLOPT; Tags.JOB].

(** The class that the callback of [res.hits.map] picks for a tag list. *)
Definition class_of_tags (tags : list string) : Objects.ObjectClass :=
  if Array_includes tags Tags.STORY then Objects.StoryObject
  else if Array_includes tags Tags.COMMENT then Objects.CommentObject
  else if Array_includes tags Tags.POLL then Objects.PollObject
  else if Array_includes tags Tags.POLLOPT then Objects.PollOptionObject
  else if Array_includes tags Tags.JOB then Objects.JobObject
  else Objects.HitObject.

(** The object that the callback builds from a raw record. *)
Definition object_from_hit (objDebug : bool) (hit : Hit) : Objects.t :=
  Objects.mk (class_of_tags (_tags hit)) objDebug
    (filterHighlightedFields (_highlightResult hit)) (_tags hit) (rest hit).

(** The console lines that building that object writes. *)
Definition object_debug_lines (objDebug : bool) (hit : Hit) : list string :=
  if objDebug then
    match class_of_tags (_tags hit) with
    | Objects.HitObject => []
    | Objects.StoryObject => ["[DEBUG OBJ] Story " ++ objectID (rest hit)]
    | Objects.CommentObject => ["[DEBUG OBJ] Comment " ++ objectID (rest hit)]
    | Objects.PollObject => ["[DEBUG OBJ] Poll " ++ objectID (rest hit)]
    | Objects.PollOptionObject => ["[DEBUG OBJ] Poll Option " ++ objectID (rest hit)]
    | Objects.JobObject => ["[DEBUG OBJ] Job " ++ objectID (rest hit)]
    end
  else [].

(** What [search] resolves or rejects to, from the answers still to come. *)
Definition search_outcome (objDebug : bool) (answers : list FetchResult)
  : Outcome HNSearchClient.HNSearchClientSearchResponse :=
  match answers with
  | Responded r :: _ =>
      if ok r then
        match json r with
        | Some res =>
            Normal (HNSearchClient.mkSearchResponse (meta_of res)
                      (map (object_from_hit objDebug) (hits res)))
        | None => Throw (SyntaxError "Unexpected token in JSON")
        end
      else Throw (Error ("HTTP error! status: " ++ Number_toString (status r)))
  | _ => Throw (TypeError "fetch failed")
  end.

(** The debug lines of [search]. *)
Definition debug_request_line (url : string) : string := "[DEBUG REQ] " ++ url.

Definition debug_response_line (res : AlgoliaResponse) : string :=
  "[DEBUG RES] " ++ Number_toString (nbHits res)
  ++ "|" ++ Number_toString (nbPages res)
  ++ "|" ++ Number_toString (res_page res)
  ++ "|" ++ Number_toString (res_hitsPerPage res)
  ++ " h/pp, " ++ Number_toString (processingTimeMS res)
  ++ "ms processing, " ++ Number_toString (serverTimeMS res)
  ++ "ms server".

Definition debug_error_line (r : Response) : string :=
  "[DEBUG RES ERR] " ++ Number_toString (status r) ++ " " ++ statusText r.

(** The lines that one run of [search] writes to the console, from the
    answers still to come when it starts. *)
Definition search_console_lines (this : HNSearchClient.t) (url : string)
           (answers : list FetchResult) : list string :=
  ((if HNSearchClient.debug this then [debug_request_line url] else [])
   ++ match answers with
      | Responded r :: _ =>
          if ok r then
            match json r with
            | Some res =>
                (if HNSearchClient.debug this then [debug_response_line res] else [])
                ++ flat_map (object_debug_lines (HNSearchClient.objDebug this))
                     (hits res)
            | None => []
            end
          else
            if HNSearchClient.debug this then [debug_error_line r] else []
      | _ => []
      end)%list.

(** A facade method run in [w] on the caller's [params] and [init] is one
    search: one request, whose query holds [tags_value] under [tags] and,
    under every other key, what a plain [search] on [params] would send, at
    the same endpoint. *)
Definition facade_call_sends (VERSION : string) (this : HackerNewsClient.t)
           (params : SearchParams) (init : RequestInit) (w : World)
           (run : Outcome HNSearchClient.HNSearchClientSearchResponse * World)
           (tags_value : string) : Prop :=
  exists P : SearchParams,
    run = HNSearchClient.search VERSION (HackerNewsClient.searchClient this) P init w
    /\ requests (snd run)
       = (requests w
          ++ [mkRequest (HNSearchClient.url (HackerNewsClient.searchClient this) P)
                (HNSearchClient.with_userAgent VERSION init)])%list
    /\ URLSearchParams_get
         (URLSearchParams_parse (buildSearchParams (HNSearchClient.searchParams P)))
         "tags" = Some tags_value
    /\ (forall name,
          name <> "tags" ->
          URLSearchParams_get
            (URLSearchParams_parse (buildSearchParams (HNSearchClient.searchParams P)))
            name
          = URLSearchParams_get
              (URLSearchParams_parse
                 (buildSearchParams (HNSearchClient.searchParams params)))
              name)
    /\ HNSearchClient.endpoint (HNSearchClient.searchParams P)
       = HNSearchClient.endpoint (HNSearchClient.searchParams params).

(** *** Values for the examples *)

Definition example_client : HackerNewsClient.t :=
  HackerNewsClient.new (HNSearchClient.mkOptions None None None).

Definition example_story_data : HitData :=
  mkHitData "whoishiring" (Some "2024-05-01T15:00:00Z") 1714575600 "40224213"
    "2024-05-02T10:00:00Z" (Some [40224300]) None (Some 512) (Some 40224213) None None
    (Some 700) None (Some "Ask HN: Who is hiring? (May 2024)") None None None.

Definition example_story : Hit :=
  mkHit [] ["story"; "author_whoishiring"; "story_40224213"; "ask_hn"]
    example_story_data.

Definition example_comment_data (created : option string) (text : option string)
  : HitData :=
  mkHitData "pg" created 1714579200 "40224300" "2024-05-01T16:00:00Z"
    None (Some 40224213) None (Some 40224213)
    (Some "Ask HN: Who is hiring? (May 2024)") text None None None None None None.

Definition example_comment (created : option string) (text : option string) : Hit :=
  mkHit [] ["comment"; "author_pg"; "story_40224213"]
    (example_comment_data created text).

Definition example_envelope (hs : list Hit) : AlgoliaResponse :=
  mkAlgoliaResponse hs 1 (Z.of_nat (List.length hs)) 1 0 2 3.

Definition example_world (answers : list FetchResult) : World :=
  mkWorld 1714600000123 answers [] [].

(* ================================================================== *)
(** * Properties *)

(** ** JavaScript primitives *)

Lemma Array_includes_In (xs : list string) (x : string) :
  Array_includes xs x = true <-> In x xs.
Proof.
  unfold Array_includes. rewrite existsb_exists. split.
  - intros (y & Hy & E). apply String.eqb_eq in E. now subst.
  - intros H. exists x. split; [assumption | apply String.eqb_refl].
Qed.

Lemma Array_includes_not_In (xs : list string) (x : string) :
  Array_includes xs x = false <-> ~ In x xs.
Proof.
  rewrite <- Array_includes_In. destruct (Array_includes xs x); split; intros H;
    try discriminate; try reflexivity; try (intro; discriminate).
  exfalso. now apply H.
Qed.

Lemma string_append_assoc (a b c : string) : (a ++ b) ++ c = a ++ (b ++ c).
Proof. induction a as [|x a IH]; simpl; [reflexivity | now rewrite IH]. Qed.

Lemma string_append_nil_r (a : string) : a ++ "" = a.
Proof. induction a as [|x a IH]; simpl; [reflexivity | now rewrite IH]. Qed.

Lemma Array_join_snoc (sep : string) (xs : list string) (x : string) :
  Array_join sep (xs ++ [x])%list =
  match xs with
  | [] => x
  | _ :: _ => Array_join sep xs ++ sep ++ x
  end.
Proof.
  unfold Array_join. induction xs as [|a xs IH]; [reflexivity|].
  destruct xs as [|b xs]; [reflexivity|].
  change (String.concat sep ((a :: b :: xs) ++ [x])%list)
    with (a ++ sep ++ String.concat sep ((b :: xs) ++ [x])%list).
  rewrite IH.
  change (String.concat sep (a :: b :: xs))
    with (a ++ sep ++ String.concat sep (b :: xs)).
  now rewrite !string_append_assoc.
Qed.

(** Serialising an entry list with one more entry at its end. *)
Lemma URLSearchParams_toString_snoc (sp : URLSearchParams) (k v : string) :
  URLSearchParams_toString (sp ++ [(k, v)])%list =
  (match sp with
   | [] => ""
   | _ :: _ => URLSearchParams_toString sp ++ "&"
   end) ++ urlencoded_serialize k ++ "=" ++ urlencoded_serialize v.
Proof.
  unfold URLSearchParams_toString. rewrite map_app. cbn [map fst snd].
  rewrite Array_join_snoc. destruct sp as [|e sp]; [reflexivity|].
  cbn [map]. now rewrite !string_append_assoc.
Qed.

(** ** The query string and its parser *)

Lemma urlencoded_decode_byte (c : ascii) (r : string) :
  urlencoded_decode (urlencoded_byte c ++ r) = String c (urlencoded_decode r).
Proof.
  destruct c as [[] [] [] [] [] [] [] []]; reflexivity.
Qed.

Lemma urlencoded_decode_serialize_app (s r : string) :
  urlencoded_decode (urlencoded_serialize s ++ r) = s ++ urlencoded_decode r.
Proof.
  induction s as [|c s IH]; [reflexivity|].
  cbn [urlencoded_serialize]. rewrite string_append_assoc, urlencoded_decode_byte.
  cbn. now rewrite IH.
Qed.

Lemma urlencoded_decode_serialize (s : string) :
  urlencoded_decode (urlencoded_serialize s) = s.
Proof.
  rewrite <- (string_append_nil_r (urlencoded_serialize s)).
  rewrite urlencoded_decode_serialize_app. apply string_append_nil_r.
Qed.

Lemma urlencoded_byte_free (c : ascii) :
  String_free "&" (urlencoded_byte c) = true /\ String_free "=" (urlencoded_byte c) = true.
Proof.
  destruct c as [[] [] [] [] [] [] [] []]; split; reflexivity.
Qed.

Lemma String_free_app (sep : ascii) (a b : string) :
  String_free sep (a ++ b) = String_free sep a && String_free sep b.
Proof.
  induction a as [|c a IH]; [reflexivity|].
  cbn. rewrite IH. now rewrite andb_assoc.
Qed.

Lemma urlencoded_serialize_free (s : string) :
  String_free "&" (urlencoded_serialize s) = true
  /\ String_free "=" (urlencoded_serialize s) = true.
Proof.
  induction s as [|c s [IH1 IH2]]; [now split|].
  cbn [urlencoded_serialize]. rewrite !String_free_app, IH1, IH2.
  destruct (urlencoded_byte_free c) as [-> ->]. now split.
Qed.

Lemma String_cut_app (sep : ascii) (a b : string) :
  String_free sep a = true ->
  String_cut sep (a ++ String sep b) = (a, b).
Proof.
  induction a as [|c a IH]; cbn.
  - now rewrite Ascii.eqb_refl.
  - intros H. apply andb_true_iff in H as [H1 H2].
    apply negb_true_iff in H1. rewrite H1, (IH H2). reflexivity.
Qed.

Lemma String_split_free (sep : ascii) (a : string) :
  String_free sep a = true -> String_split sep a = [a].
Proof.
  induction a as [|c a IH]; cbn; [reflexivity|].
  intros H. apply andb_true_iff in H as [H1 H2].
  apply negb_true_iff in H1. rewrite H1, (IH H2). reflexivity.
Qed.

Lemma String_split_app (sep : ascii) (a r : string) :
  String_free sep a = true ->
  String_split sep (a ++ String sep r) = a :: String_split sep r.
Proof.
  induction a as [|c a IH]; cbn.
  - now rewrite Ascii.eqb_refl.
  - intros H. apply andb_true_iff in H as [H1 H2].
    apply negb_true_iff in H1. rewrite H1, (IH H2). reflexivity.
Qed.

Lemma String_split_join (sep : ascii) (p : string) (ps : list string) :
  Forall (fun q => String_free sep q = true) (p :: ps) ->
  String_split sep (Array_join (String sep EmptyString) (p :: ps)) = p :: ps.
Proof.
  unfold Array_join. revert p. induction ps as [|q ps IH]; intros p H.
  - cbn. apply String_split_free. now inversion H.
  - inversion H as [|? ? Hp Hps]; subst.
    change (String.concat (String sep "") (p :: q :: ps))
      with (p ++ String sep (String.concat (String sep "") (q :: ps))).
    rewrite (String_split_app _ _ _ Hp). now rewrite (IH q Hps).
Qed.

(** What [toString] writes, the parser reads back: entry for entry. *)
Theorem URLSearchParams_parse_toString (sp : URLSearchParams) :
  URLSearchParams_parse (URLSearchParams_toString sp) = sp.
Proof.
  unfold URLSearchParams_parse, URLSearchParams_toString.
  destruct sp as [|e sp]; [reflexivity|].
  set (f := fun e : string * string =>
              urlencoded_serialize (fst e) ++ "=" ++ urlencoded_serialize (snd e)).
  change (map f (e :: sp)) with (f e :: map f sp).
  rewrite String_split_join.
  - change (f e :: map f sp) with (map f (e :: sp)).
    induction (e :: sp) as [|[k v] l IH]; [reflexivity|].
    cbn [map filter]. unfold f at 1. cbn [fst snd].
    assert (N : String.eqb (urlencoded_serialize k ++ "=" ++ urlencoded_serialize v) ""
                = false).
    { destruct (urlencoded_serialize k); reflexivity. }
    rewrite N. cbn [negb map]. unfold f at 1. cbn [fst snd].
    change ("=" ++ urlencoded_serialize v) with (String "=" (urlencoded_serialize v)).
    rewrite String_cut_app by apply urlencoded_serialize_free.
    rewrite !urlencoded_decode_serialize. f_equal. exact IH.
  - change (f e :: map f sp) with (map f (e :: sp)).
    apply Forall_forall. intros q Hq. apply in_map_iff in Hq as ([k v] & <- & _).
    unfold f. cbn [fst snd]. rewrite !String_free_app.
    destruct (urlencoded_serialize_free k) as [-> _].
    destruct (urlencoded_serialize_free v) as [-> _]. reflexivity.
Qed.

(** ** [buildSearchParams] *)

(** The entries in the order they are set: each key is set at most once on a
    fresh object, so [set] appends. *)
Lemma buildSearchParams_entries_eq (params : SearchParams) :
  buildSearchParams_entries params =
  (((if truthy (query params) then [("query", nullish (query params) "")] else [])
   ++ (if nonempty (tags params)
       then [("tags", Array_join "," (map TagItem_toString (nullish (tags params) [])))]
       else [])
   ++ (if nonempty (numericFilters params)
       then [("numericFilters", Array_join "," (nullish (numericFilters params) []))]
       else [])
   ++ (if nonempty (optionalWords params)
       then [("optionalWords", Array_join " " (nullish (optionalWords params) []))]
       else [])
   ++ (match page params with
       | Some p => [("page", Number_toString p)]
       | None => []
       end)
   ++ (if truthy (filters params) then [("filters", nullish (filters params) "")] else [])
   ++ (match hitsPerPage params with
       | Some h => [("hitsPerPage", Number_toString h)]
       | None => []
       end))
  ++ [("restrictSearchableAttributes", restrictSearchableAttributes_value params)])%list.
Proof.
  unfold buildSearchParams_entries, restrictSearchableAttributes_value.
  destruct (restrictSearchableAttributes params) as [[|a l]|];
    destruct (truthy (query params)), (nonempty (tags params)),
      (nonempty (numericFilters params)), (nonempty (optionalWords params)),
      (page params), (truthy (filters params)), (hitsPerPage params);
    reflexivity.
Qed.

(** The receiver of the query reads the entries that were set. *)
Lemma buildSearchParams_parse (params : SearchParams) :
  URLSearchParams_parse (buildSearchParams params) = buildSearchParams_entries params.
Proof. apply URLSearchParams_parse_toString. Qed.

Lemma buildSearchParams_get_restrictSearchableAttributes (params : SearchParams) :
  URLSearchParams_get (buildSearchParams_entries params) "restrictSearchableAttributes"
  = Some (restrictSearchableAttributes_value params).
Proof.
  rewrite buildSearchParams_entries_eq.
  destruct (truthy (query params)), (nonempty (tags params)),
    (nonempty (numericFilters params)), (nonempty (optionalWords params)),
    (page params), (truthy (filters params)), (hitsPerPage params);
    reflexivity.
Qed.

Lemma buildSearchParams_count_restrictSearchableAttributes (params : SearchParams) :
  URLSearchParams_count (buildSearchParams_entries params) "restrictSearchableAttributes"
  = 1%nat.
Proof.
  rewrite buildSearchParams_entries_eq. unfold URLSearchParams_count.
  destruct (truthy (query params)), (nonempty (tags params)),
    (nonempty (numericFilters params)), (nonempty (optionalWords params)),
    (page params), (truthy (filters params)), (hitsPerPage params);
    reflexivity.
Qed.

(** The query string ends with the [restrictSearchableAttributes] pair. *)
Lemma buildSearchParams_suffix (params : SearchParams) :
  exists prefix : string,
    buildSearchParams params =
      prefix ++ "restrictSearchableAttributes="
      ++ urlencoded_serialize (restrictSearchableAttributes_value params)
    /\ (prefix = "" \/ exists q, prefix = q ++ "&").
Proof.
  unfold buildSearchParams. rewrite buildSearchParams_entries_eq.
  rewrite URLSearchParams_toString_snoc.
  match goal with
  | |- context [match ?l with [] => _ | _ :: _ => _ end] => destruct l as [|e sp]
  end.
  - exists "". split; [reflexivity | now left].
  - eexists. split; [reflexivity | right; eexists; reflexivity].
Qed.

(** C6. Whatever the search parameters, the query string that
    [buildSearchParams] returns holds the key [restrictSearchableAttributes],
    once: its value is the comma-join of the attribute names when the list
    is present and not empty, and the literal ["title"] when the list is
    omitted or empty; the query string ends with that pair. *)
Theorem buildSearchParams_restrictSearchableAttributes (params : SearchParams) :
  exists v prefix : string,
    v = match restrictSearchableAttributes params with
        | Some (a :: l) => Array_join "," (a :: l)
        | Some [] | None => "title"
        end
    /\ URLSearchParams_get (URLSearchParams_parse (buildSearchParams params))
         "restrictSearchableAttributes" = Some v
    /\ URLSearchParams_count (URLSearchParams_parse (buildSearchParams params))
         "restrictSearchableAttributes" = 1%nat
    /\ buildSearchParams params =
         prefix ++ "restrictSearchableAttributes=" ++ urlencoded_serialize v
    /\ (prefix = "" \/ exists q, prefix = q ++ "&").
Proof.
  destruct (buildSearchParams_suffix params) as (prefix & E & Hp).
  exists (restrictSearchableAttributes_value params), prefix.
  rewrite buildSearchParams_parse.
  split; [reflexivity|].
  split; [apply buildSearchParams_get_restrictSearchableAttributes|].
  split; [apply buildSearchParams_count_restrictSearchableAttributes|].
  split; assumption.
Qed.

(** ** [HNSearchClient.search]: the effective [hitsPerPage] *)



(** [search] always sends [hitsPerPage], with the effective value. *)
Lemma search_sends_hitsPerPage (params : SearchParams) :
  URLSearchParams_get
    (buildSearchParams_entries (HNSearchClient.searchParams params)) "hitsPerPage"
  = Some (Number_toString (effective_hitsPerPage params)).
Proof.
  rewrite buildSearchParams_entries_eq.
  unfold effective_hitsPerPage, HNSearchClient.searchParams. cbn.
  destruct (truthy (query params)), (nonempty (tags params)),
    (nonempty (numericFilters params)), (nonempty (optionalWords params)),
    (page params), (truthy (filters params));
    reflexivity.
Qed.

(** C1. The conditional of [search] tests [hitsPerPage < 0], not
    [hitsPerPage < 1]: a caller's [hitsPerPage] of 0 is sent as
    [hitsPerPage=0], below the documented range of 1 to 100. *)
Theorem search_hitsPerPage_zero_is_sent (params : SearchParams) :
  effective_hitsPerPage (with_hitsPerPage params (Some 0)) = 0
  /\ URLSearchParams_get
       (URLSearchParams_parse
          (buildSearchParams
             (HNSearchClient.searchParams (with_hitsPerPage params (Some 0)))))
       "hitsPerPage" = Some "0"
  /\ HNSearchClient.url (HNSearchClient.new (HNSearchClient.mkOptions None None None))
       (with_hitsPerPage SearchParams_empty (Some 0))
     = "https://hn.algolia.com/api/v1/search_by_date?hitsPerPage=0&restrictSearchableAttributes=title".
Proof.
  split; [reflexivity|]. split; [|reflexivity].
  rewrite buildSearchParams_parse, search_sends_hitsPerPage. reflexivity.
Qed.

(** ** The monad and the world *)

Lemma same_network_refl (w : World) : same_network w w.
Proof. now repeat split. Qed.

Lemma same_network_trans (w1 w2 w3 : World) :
  same_network w1 w2 -> same_network w2 w3 -> same_network w1 w3.
Proof.
  unfold same_network. intros (A & B & C) (D & E & F).
  repeat split; congruence.
Qed.

Lemma when_console_log (b : bool) (line : string) (w : World) :
  exists w', when b (console_log line) w = (Normal tt, w') /\ same_network w w'.
Proof.
  destruct b; cbn; eexists; (split; [reflexivity | now repeat split]).
Qed.

Lemma bind_ret {A B : Type} (a : A) (k : A -> M B) (w : World) :
  bind (ret a) k w = k a w.
Proof. reflexivity. Qed.

Lemma bind_throw {A B : Type} (e : JsError) (k : A -> M B) (w : World) :
  bind (throw e) k w = (Throw e, w).
Proof. reflexivity. Qed.

(** ** Building the objects *)

Lemma HitObject_new_spec (hit : Hit) (d : bool) (w : World) :
  exists o,
    Objects.HitObject_new hit d w = (Normal o, w)
    /\ Objects.class o = Objects.HitObject /\ object_of_hit d hit o.
Proof.
  eexists. split; [reflexivity|]. now repeat split.
Qed.

Lemma subclass_new_spec (c : Objects.ObjectClass) (name : string)
      (hit : Hit) (d : bool) (w : World) :
  exists o w',
    Objects.subclass_new c name hit d w = (Normal o, w')
    /\ same_network w w'
    /\ Objects.class o = c /\ object_of_hit d hit o.
Proof.
  unfold Objects.subclass_new, Objects.HitObject_new, Objects.reportCreateDebug.
  unfold bind, ret. cbn.
  destruct d; cbn; do 2 eexists; (split; [reflexivity|]); now repeat split.
Qed.

(** Every raw record becomes an object: the callback of [map] never throws
    and touches nothing but the console. *)
Lemma hit_to_object_spec (this : HNSearchClient.t) (hit : Hit) (w : World) :
  exists o w',
    HNSearchClient.hit_to_object this hit w = (Normal o, w')
    /\ same_network w w'
    /\ object_of_hit (HNSearchClient.objDebug this) hit o.
Proof.
  unfold HNSearchClient.hit_to_object.
  repeat match goal with
         | |- context [if Array_includes ?l ?x then _ else _] =>
             destruct (Array_includes l x)
         end;
    try (edestruct subclass_new_spec as (o & w' & E & F & _ & G);
         exists o, w'; split; [exact E | split; assumption]).
  destruct (HitObject_new_spec hit (HNSearchClient.objDebug this) w) as (o & E & _ & G).
  exists o, w. split; [exact E|]. split; [apply same_network_refl | assumption].
Qed.

Lemma Array_map_hit_to_object (this : HNSearchClient.t) (hs : list Hit) (w : World) :
  exists objs w',
    Array_map (HNSearchClient.hit_to_object this) hs w = (Normal objs, w')
    /\ same_network w w'
    /\ Forall2 (object_of_hit (HNSearchClient.objDebug this)) hs objs.
Proof.
  revert w. induction hs as [|h hs IH]; intros w.
  - exists [], w. split; [reflexivity|]. split; [apply same_network_refl | constructor].
  - destruct (hit_to_object_spec this h w) as (o & w1 & E1 & F1 & G1).
    destruct (IH w1) as (objs & w2 & E2 & F2 & G2).
    exists (o :: objs), w2. split.
    + cbn [Array_map]. unfold bind at 1. rewrite E1.
      unfold bind at 1. rewrite E2. reflexivity.
    + split; [eapply same_network_trans; eassumption | now constructor].
Qed.

Ltac includes_to_In :=
  repeat match goal with
         | H : Array_includes _ _ = true |- _ => apply Array_includes_In in H
         | H : Array_includes _ _ = false |- _ => apply Array_includes_not_In in H
         end.

(** C2. The callback that [search] maps over the raw hits classifies a
    record by its raw tag list in the order story, comment, poll, pollopt,
    job, the first tag present deciding, and builds the generic [HitObject]
    exactly when none of the five is present; it never throws, and the
    object keeps the record's tags and data.  A record tagged
    [["story"; "front_page"]] becomes a [StoryObject], whose [type] is
    ["story"]. *)
Theorem hit_to_object_priority (this : HNSearchClient.t) (hit : Hit) (w : World) :
  exists o w',
    HNSearchClient.hit_to_object this hit w = (Normal o, w')
    /\ object_of_hit (HNSearchClient.objDebug this) hit o
    /\ (In "story" (_tags hit) -> Objects.class o = Objects.StoryObject)
    /\ (~ In "story" (_tags hit) -> In "comment" (_tags hit) ->
        Objects.class o = Objects.CommentObject)
    /\ (~ In "story" (_tags hit) -> ~ In "comment" (_tags hit) ->
        In "poll" (_tags hit) -> Objects.class o = Objects.PollObject)
    /\ (~ In "story" (_tags hit) -> ~ In "comment" (_tags hit) ->
        ~ In "poll" (_tags hit) -> In "pollopt" (_tags hit) ->
        Objects.class o = Objects.PollOptionObject)
    /\ (~ In "story" (_tags hit) -> ~ In "comment" (_tags hit) ->
        ~ In "poll" (_tags hit) -> ~ In "pollopt" (_tags hit) ->
        In "job" (_tags hit) -> Objects.class o = Objects.JobObject)
    /\ (Objects.class o = Objects.HitObject <->
        ~ In "story" (_tags hit) /\ ~ In "comment" (_tags hit)
        /\ ~ In "poll" (_tags hit) /\ ~ In "pollopt" (_tags hit)
        /\ ~ In "job" (_tags hit))
    /\ (_tags hit = ["story"; "front_page"] -> Objects.type o = "story").
Proof.
  unfold HNSearchClient.hit_to_object, Tags.STORY, Tags.COMMENT, Tags.POLL,
    Tags.POLLOPT, Tags.JOB.
  destruct (Array_includes (_tags hit) "story") eqn:Hs;
    [|destruct (Array_includes (_tags hit) "comment") eqn:Hc;
      [|destruct (Array_includes (_tags hit) "poll") eqn:Hp;
        [|destruct (Array_includes (_tags hit) "pollopt") eqn:Ho;
          [|destruct (Array_includes (_tags hit) "job") eqn:Hj]]]];
    includes_to_In.
  1-5: edestruct subclass_new_spec as (o & w' & E & _ & C & G);
    exists o, w'; (split; [exact E|]); (split; [exact G|]);
    unfold Objects.type; rewrite C;
    repeat split; intros; try tauto; try discriminate.
  - rewrite H in Hs. exfalso. apply Hs. now left.
  - rewrite H in Hs. exfalso. apply Hs. now left.
  - rewrite H in Hs. exfalso. apply Hs. now left.
  - rewrite H in Hs. exfalso. apply Hs. now left.
  - destruct (HitObject_new_spec hit (HNSearchClient.objDebug this) w)
      as (o & E & C & G).
    exists o, w. split; [exact E|]. split; [exact G|].
    rewrite C. repeat split; intros; try tauto.
    rewrite H in Hs. exfalso. apply Hs. now left.
Qed.

(** ** [HNSearchClient.search] *)

Section Search.

Variable VERSION : string.
Variable this : HNSearchClient.t.

(** One run of [search]: it calls [fetch] exactly once, with the URL built
    from its parameters, takes exactly one answer of the network, and its
    outcome is decided by that answer. *)
Lemma search_run (params : SearchParams) (init : RequestInit) (w : World) :
  exists o w',
    HNSearchClient.search VERSION this params init w = (o, w')
    /\ requests w' =
       (requests w ++ [mkRequest (HNSearchClient.url this params)
                         (HNSearchClient.with_userAgent VERSION init)])%list
    /\ pending w' = tl (pending w)
    /\ clock w' = clock w
    /\ match pending w with
       | Responded r :: _ =>
           if ok r then
             match json r with
             | Some res =>
                 exists objs,
                   o = Normal (HNSearchClient.mkSearchResponse (meta_of res) objs)
                   /\ Forall2 (object_of_hit (HNSearchClient.objDebug this))
                        (hits res) objs
             | None => o = Throw (SyntaxError "Unexpected token in JSON")
             end
           else
             o = Throw (Error ("HTTP error! status: " ++ Number_toString (status r)))
       | _ => o = Throw (TypeError "fetch failed")
       end.
Proof.
  unfold HNSearchClient.search.
  destruct (when_console_log (HNSearchClient.debug this)
              ("[DEBUG REQ] " ++ HNSearchClient.url this params) w)
    as (w1 & E1 & C1 & P1 & R1).
  unfold bind at 1. rewrite E1.
  unfold bind at 1. unfold fetch at 1. rewrite P1, R1, C1.
  destruct (pending w) as [|[|r] ps]; cbn [tl];
    try (do 2 eexists; split; [reflexivity|]; now repeat split).
  destruct (ok r); cbn [negb].
  - unfold Response_json. destruct (json r) as [res|].
    + rewrite bind_ret. unfold bind at 1.
      match goal with
      | |- context [when ?b (console_log ?l) ?w0] =>
          destruct (when_console_log b l w0) as (w2 & E2 & C2 & P2 & R2)
      end.
      rewrite E2.
      destruct (Array_map_hit_to_object this (hits res) w2)
        as (objs & w3 & E3 & (C3 & P3 & R3) & F).
      unfold bind at 1. rewrite E3. unfold ret.
      do 2 eexists. split; [reflexivity|].
      rewrite C3, P3, R3, C2, P2, R2. cbn.
      repeat split. exists objs. split; [reflexivity | exact F].
    + do 2 eexists. split; [reflexivity|]. now repeat split.
  - unfold bind at 1.
    match goal with
    | |- context [when ?b (console_log ?l) ?w0] =>
        destruct (when_console_log b l w0) as (w2 & E2 & C2 & P2 & R2)
    end.
    rewrite E2. unfold throw.
    do 2 eexists. split; [reflexivity|].
    rewrite C2, P2, R2. now repeat split.
Qed.

End Search.

(** C5 (as amended). A response that is not [ok] makes [search] throw a
    plain [Error] whose message is [HTTP error! status: ] followed by the
    status code; [fetch] has been called once and only once, the answers
    still to come are untouched, and nothing catches the error. *)
Theorem search_http_error (VERSION : string) (this : HNSearchClient.t)
        (params : SearchParams) (init : RequestInit) (w : World)
        (r : Response) (ps : list FetchResult) :
  pending w = Responded r :: ps ->
  ok r = false ->
  exists w',
    HNSearchClient.search VERSION this params init w
    = (Throw (Error ("HTTP error! status: " ++ Number_toString (status r))), w')
    /\ requests w' =
       (requests w ++ [mkRequest (HNSearchClient.url this params)
                         (HNSearchClient.with_userAgent VERSION init)])%list
    /\ pending w' = ps
    /\ clock w' = clock w.
Proof.
  intros Hp Hok.
  destruct (search_run VERSION this params init w) as (o & w' & E & R & P & C & H).
  rewrite Hp in H, P. rewrite Hok in H. subst o.
  exists w'. repeat split; assumption.
Qed.

Lemma search_http_error_witness :
  exists w',
    HNSearchClient.search "1.0.0" (HackerNewsClient.searchClient example_client)
      SearchParams_empty RequestInit_empty
      (example_world [Responded (mkResponse false 503 "Service Unavailable" None)])
    = (Throw (Error "HTTP error! status: 503"), w')
    /\ List.length (requests w') = 1%nat
    /\ pending w' = [].
Proof.
  destruct (search_http_error "1.0.0" (HackerNewsClient.searchClient example_client)
              SearchParams_empty RequestInit_empty
              (example_world [Responded (mkResponse false 503 "Service Unavailable" None)])
              (mkResponse false 503 "Service Unavailable" None) []
              eq_refl eq_refl) as (w' & E & R & P & _).
  exists w'. split; [exact E|]. split; [rewrite R; reflexivity | exact P].
Defined.

(** C5 (as stated) does not hold: no function reads the status text off the
    error that [search] throws, since two failed responses with one status
    code and two status texts throw the same error. *)
Lemma search_error_without_statusText :
  ~ exists statusText_of : JsError -> string,
      forall r : Response,
        ok r = false ->
        forall e w',
          HNSearchClient.search "1.0.0" (HackerNewsClient.searchClient example_client)
            SearchParams_empty RequestInit_empty (example_world [Responded r])
          = (Throw e, w') ->
          statusText_of e = statusText r.
Proof.
  intros (f & H).
  pose proof (H (mkResponse false 503 "Service Unavailable" None) eq_refl _ _ eq_refl) as H1.
  pose proof (H (mkResponse false 503 "Backend fetch failed" None) eq_refl _ _ eq_refl) as H2.
  cbn in H1, H2. rewrite H1 in H2. discriminate H2.
Qed.

(** ** What the query of a request holds *)

Lemma buildSearchParams_get_tags (params : SearchParams) :
  URLSearchParams_get (buildSearchParams_entries params) "tags"
  = if nonempty (tags params)
    then Some (Array_join "," (map TagItem_toString (nullish (tags params) [])))
    else None.
Proof.
  rewrite buildSearchParams_entries_eq.
  destruct (truthy (query params)), (nonempty (tags params)),
    (nonempty (numericFilters params)), (nonempty (optionalWords params)),
    (page params), (truthy (filters params)), (hitsPerPage params);
    reflexivity.
Qed.

Lemma buildSearchParams_get_numericFilters (params : SearchParams) :
  URLSearchParams_get (buildSearchParams_entries params) "numericFilters"
  = if nonempty (numericFilters params)
    then Some (Array_join "," (nullish (numericFilters params) []))
    else None.
Proof.
  rewrite buildSearchParams_entries_eq.
  destruct (truthy (query params)), (nonempty (tags params)),
    (nonempty (numericFilters params)), (nonempty (optionalWords params)),
    (page params), (truthy (filters params)), (hitsPerPage params);
    reflexivity.
Qed.

Lemma buildSearchParams_get_filters (params : SearchParams) :
  URLSearchParams_get (buildSearchParams_entries params) "filters"
  = if truthy (filters params) then filters params else None.
Proof.
  rewrite buildSearchParams_entries_eq.
  destruct (filters params) as [[|c f]|];
    destruct (truthy (query params)), (nonempty (tags params)),
      (nonempty (numericFilters params)), (nonempty (optionalWords params)),
      (page params), (hitsPerPage params);
    reflexivity.
Qed.

(** ** The facade: [frontPage] *)

Lemma one_week_ago_bounds (now : Z) :
  let N := now / 1000 - 7 * 24 * 60 * 60 in
  1000 * (N + 604800) <= now < 1000 * (N + 604800) + 1000.
Proof.
  intros N. subst N.
  pose proof (Z_div_mod_eq_full now 1000) as E.
  pose proof (Z.mod_pos_bound now 1000 ltac:(lia)) as B.
  lia.
Qed.

(** C7. Every call of [frontPage] makes one request, built from search
    parameters whose [numericFilters] is the single filter
    [created_at_i>=N], where [N] is the call time in seconds, rounded down,
    minus 604800 (so [N] lies within one second of now - 604800), and whose
    [tags] is [["front_page"; "story"]]; the query of the request holds
    exactly these two values under [numericFilters] and [tags]. *)
Theorem frontPage_request (VERSION : string) (this : HackerNewsClient.t)
        (params : SearchParams) (init : RequestInit) (w : World) :
  exists (N : Z) (P : SearchParams) o w',
    1000 * (N + 604800) <= clock w < 1000 * (N + 604800) + 1000
    /\ HackerNewsClient.frontPage VERSION this params init w = (o, w')
    /\ requests w' =
       (requests w
        ++ [mkRequest (HNSearchClient.url (HackerNewsClient.searchClient this) P)
              (HNSearchClient.with_userAgent VERSION init)])%list
    /\ tags P = Some [ATag "front_page"; ATag "story"]
    /\ numericFilters P = Some ["created_at_i>=" ++ Number_toString N]
    /\ URLSearchParams_get
         (URLSearchParams_parse (buildSearchParams (HNSearchClient.searchParams P)))
         "tags"
       = Some "front_page,story"
    /\ URLSearchParams_get
         (URLSearchParams_parse (buildSearchParams (HNSearchClient.searchParams P)))
         "numericFilters"
       = Some ("created_at_i>=" ++ Number_toString N).
Proof.
  exists (clock w / 1000 - 7 * 24 * 60 * 60).
  exists (HackerNewsClient.frontPage_params params (clock w / 1000 - 7 * 24 * 60 * 60)).
  unfold HackerNewsClient.frontPage, Date_now. unfold bind at 1.
  destruct (search_run VERSION (HackerNewsClient.searchClient this)
              (HackerNewsClient.frontPage_params params (clock w / 1000 - 7 * 24 * 60 * 60))
              init w) as (o & w' & E & R & _).
  exists o, w'.
  split; [apply one_week_ago_bounds|].
  split; [exact E|]. split; [exact R|].
  split; [reflexivity|]. split; [reflexivity|].
  rewrite buildSearchParams_parse. split.
  - rewrite buildSearchParams_get_tags. reflexivity.
  - rewrite buildSearchParams_get_numericFilters. reflexivity.
Qed.

(** C9. Two calls of [frontPage] whose parameter objects differ only in
    [numericFilters] run alike in the same world: same request, same
    outcome.  The filters of the caller are replaced by the week filter, not
    joined to it. *)
Theorem frontPage_ignores_numericFilters (VERSION : string) (this : HackerNewsClient.t)
        (p q : SearchParams) (init : RequestInit) (w : World) :
  agree_but_numericFilters p q ->
  HackerNewsClient.frontPage VERSION this p init w
  = HackerNewsClient.frontPage VERSION this q init w
  /\ forall N,
       numericFilters (HackerNewsClient.frontPage_params p N)
       = Some ["created_at_i>=" ++ Number_toString N].
Proof.
  intros (Hq & Ht & Hpg & Hh & Hs & Ho & Hf & Hr).
  split; [|reflexivity].
  unfold HackerNewsClient.frontPage, HackerNewsClient.frontPage_params.
  now rewrite Hq, Hpg, Hh, Hs, Ho, Hf, Hr.
Qed.

Lemma frontPage_ignores_numericFilters_witness :
  HackerNewsClient.frontPage "1.0.0" example_client
    (with_numericFilters SearchParams_empty (Some ["points>=100"; "num_comments<5"]))
    RequestInit_empty
    (example_world [Responded (mkResponse true 200 "OK" (Some (example_envelope [example_story])))])
  = HackerNewsClient.frontPage "1.0.0" example_client
      SearchParams_empty RequestInit_empty
      (example_world [Responded (mkResponse true 200 "OK" (Some (example_envelope [example_story])))]).
Proof.
  apply (frontPage_ignores_numericFilters "1.0.0" example_client
           (with_numericFilters SearchParams_empty (Some ["points>=100"; "num_comments<5"]))
           SearchParams_empty).
  repeat split; reflexivity.
Defined.

(** ** The facade: [whoIsHiring] *)

(** C8. Let the first lookup of [whoIsHiring] (the stories of the account
    [whoishiring], one hit per page) be answered with an [ok] response.
    With no hit in it, [whoIsHiring] returns that empty response at once:
    [fetch] has been called once and no further answer is taken.  With a hit
    in it, [fetch] is called exactly once more, for the comments filtered by
    [parent_id=] followed by the [story_id] of the first hit, 100 per
    page. *)
Theorem whoIsHiring_requests (VERSION : string) (this : HackerNewsClient.t)
        (params : SearchParams) (init : RequestInit) (w : World)
        (r : Response) (ps : list FetchResult) (res : AlgoliaResponse) :
  pending w = Responded r :: ps ->
  ok r = true ->
  json r = Some res ->
  let first :=
    mkRequest
      (HNSearchClient.url (HackerNewsClient.searchClient this)
         HackerNewsClient.whoIsHiring_story_params)
      (HNSearchClient.with_userAgent VERSION RequestInit_empty) in
  URLSearchParams_get
    (URLSearchParams_parse
       (buildSearchParams
          (HNSearchClient.searchParams HackerNewsClient.whoIsHiring_story_params)))
    "tags"
  = Some "story,author_whoishiring"
  /\ (hits res = [] ->
      exists w',
        HackerNewsClient.whoIsHiring VERSION this params init w
        = (Normal (HNSearchClient.mkSearchResponse (meta_of res) []), w')
        /\ requests w' = (requests w ++ [first])%list
        /\ pending w' = ps)
  /\ (forall h hs,
        hits res = h :: hs ->
        exists (P : SearchParams) o w',
          HackerNewsClient.whoIsHiring VERSION this params init w = (o, w')
          /\ requests w' =
             (requests w
              ++ [first;
                  mkRequest (HNSearchClient.url (HackerNewsClient.searchClient this) P)
                    (HNSearchClient.with_userAgent VERSION init)])%list
          /\ pending w' = tl ps
          /\ tags P = Some [ATag "comment"]
          /\ hitsPerPage P = Some 100
          /\ filters P = Some ("parent_id=" ++ template_number (story_id (rest h)))
          /\ URLSearchParams_get
               (URLSearchParams_parse
                  (buildSearchParams (HNSearchClient.searchParams P)))
               "filters"
             = Some ("parent_id=" ++ template_number (story_id (rest h)))).
Proof.
  intros Hp Hok Hj first.
  split; [rewrite buildSearchParams_parse; reflexivity|].
  unfold HackerNewsClient.whoIsHiring.
  destruct (search_run VERSION (HackerNewsClient.searchClient this)
              HackerNewsClient.whoIsHiring_story_params RequestInit_empty w)
    as (o1 & w1 & E1 & R1 & P1 & C1 & H1).
  rewrite Hp in H1, P1. rewrite Hok, Hj in H1. cbn [tl] in P1.
  destruct H1 as (objs & -> & F).
  split.
  - intros Hh. rewrite Hh in F. inversion F; subst.
    exists w1. unfold bind. rewrite E1. cbn.
    repeat split; assumption.
  - intros h hs Hh. rewrite Hh in F. inversion F as [|h' o hs' objs' Ho F' E0 E0']; subst.
    destruct (search_run VERSION (HackerNewsClient.searchClient this)
                (HackerNewsClient.whoIsHiring_comments_params params o) init w1)
      as (o2 & w2 & E2 & R2 & P2 & C2 & _).
    exists (HackerNewsClient.whoIsHiring_comments_params params o), o2, w2.
    destruct Ho as (_ & _ & _ & Hd).
    split; [unfold bind; rewrite E1; cbn; exact E2|].
    split; [rewrite R2, R1, <- app_assoc; reflexivity|].
    split; [first [exact P2 | rewrite P2, P1; reflexivity]|].
    split; [reflexivity|]. split; [reflexivity|].
    split; [cbn; now rewrite Hd|].
    rewrite buildSearchParams_parse, buildSearchParams_get_filters. cbn.
    now rewrite Hd.
Qed.

Lemma whoIsHiring_requests_witness :
  (exists w',
     HackerNewsClient.whoIsHiring "1.0.0" example_client SearchParams_empty
       RequestInit_empty
       (example_world
          [Responded (mkResponse true 200 "OK" (Some (example_envelope [])));
           Responded (mkResponse true 200 "OK"
                        (Some (example_envelope [example_comment None None])))])
     = (Normal (HNSearchClient.mkSearchResponse (meta_of (example_envelope [])) []), w')
     /\ List.length (requests w') = 1%nat
     /\ List.length (pending w') = 1%nat)
  /\ (exists P o w',
        HackerNewsClient.whoIsHiring "1.0.0" example_client SearchParams_empty
          RequestInit_empty
          (example_world
             [Responded (mkResponse true 200 "OK" (Some (example_envelope [example_story])));
              Responded (mkResponse true 200 "OK"
                           (Some (example_envelope [example_comment None None])))])
        = (o, w')
        /\ filters P = Some "parent_id=40224213"
        /\ List.length (requests w') = 2%nat
        /\ pending w' = []).
Proof.
  split.
  - destruct (whoIsHiring_requests "1.0.0" example_client SearchParams_empty
                RequestInit_empty
                (example_world
                   [Responded (mkResponse true 200 "OK" (Some (example_envelope [])));
                    Responded (mkResponse true 200 "OK"
                                 (Some (example_envelope [example_comment None None])))])
                _ _ _ eq_refl eq_refl eq_refl) as (_ & H & _).
    destruct (H eq_refl) as (w' & E & R & P).
    exists w'. split; [exact E|]. split; [rewrite R | rewrite P]; reflexivity.
  - destruct (whoIsHiring_requests "1.0.0" example_client SearchParams_empty
                RequestInit_empty
                (example_world
                   [Responded (mkResponse true 200 "OK" (Some (example_envelope [example_story])));
                    Responded (mkResponse true 200 "OK"
                                 (Some (example_envelope [example_comment None None])))])
                _ _ _ eq_refl eq_refl eq_refl) as (_ & _ & H).
    destruct (H _ _ eq_refl) as (P & o & w' & E & R & Pd & _ & _ & Hf & _).
    exists P, o, w'. split; [exact E|]. split; [exact Hf|].
    split; [rewrite R; reflexivity | exact Pd].
Defined.

(** The two requests of [whoIsHiring] when the first lookup finds a story. *)
Example whoIsHiring_urls :
  map request_url
    (requests
       (snd (HackerNewsClient.whoIsHiring "1.0.0" example_client SearchParams_empty
               RequestInit_empty
               (example_world
                  [Responded (mkResponse true 200 "OK"
                                (Some (example_envelope [example_story])));
                   Responded (mkResponse true 200 "OK"
                                (Some (example_envelope [example_comment None None])))]))))
  = ["https://hn.algolia.com/api/v1/search_by_date?tags=story%2Cauthor_whoishiring&hitsPerPage=1&restrictSearchableAttributes=title";
     "https://hn.algolia.com/api/v1/search_by_date?tags=comment&filters=parent_id%3D40224213&hitsPerPage=100&restrictSearchableAttributes=title"].
Proof. vm_compute. reflexivity. Qed.

(** ** [OrTags] *)

(** C3 (as stated) does not hold: building an [OrTags] over no tag does not
    throw. *)
Lemma OrTags_from_empty_does_not_throw :
  ~ exists e : JsError, OrTags.from [] = Throw e.
Proof. intros (e & H). discriminate H. Qed.

(** C3 (as amended). Building an [OrTags] never fails, whatever the member
    list, the empty one included; its serialisation is the comma-join of the
    members between parentheses: [()] for no member and [(story,comment)]
    for [story] and [comment]. *)
Theorem OrTags_from_toString :
  (forall members : list Tag,
     exists o,
       OrTags.from members = Normal o
       /\ OrTags.tags o = members
       /\ OrTags.toString o = "(" ++ Array_join "," members ++ ")")
  /\ (exists o, OrTags.from [] = Normal o /\ OrTags.toString o = "()")
  /\ (exists o,
        OrTags.from [Tags.STORY; Tags.COMMENT] = Normal o
        /\ OrTags.toString o = "(story,comment)").
Proof.
  split; [|split].
  - intros members. eexists. split; [reflexivity|]. split; reflexivity.
  - eexists. split; reflexivity.
  - eexists. split; reflexivity.
Qed.

(** ** The accessors of the objects *)

(** C4. On a record whose [created_at] is a non-empty string, [createdAt]
    returns the [Date] that [parseISO] makes of it, whatever that is: for a
    string that is not a date this is the invalid date, not [null]. *)
Theorem createdAt_of_nonempty_string (parseISO : string -> JsDate) (o : Objects.t)
        (c : ascii) (s : string) :
  created_at (Objects.data o) = Some (String c s) ->
  Objects.createdAt parseISO o = Some (parseISO (String c s)).
Proof.
  intros H. unfold Objects.createdAt. now rewrite H.
Qed.

Lemma createdAt_of_nonempty_string_witness :
  Objects.createdAt (fun _ => InvalidDate)
    (Objects.mk Objects.CommentObject false [] ["comment"]
       (example_comment_data (Some "not-a-date") None))
  = Some InvalidDate.
Proof.
  apply (createdAt_of_nonempty_string (fun _ => InvalidDate)
           (Objects.mk Objects.CommentObject false [] ["comment"]
              (example_comment_data (Some "not-a-date") None))
           "n" "ot-a-date").
  reflexivity.
Defined.

(** [createdAt] is [null] only for an absent or empty [created_at]. *)
Lemma createdAt_null_iff (parseISO : string -> JsDate) (o : Objects.t) :
  Objects.createdAt parseISO o = None
  <-> created_at (Objects.data o) = None \/ created_at (Objects.data o) = Some "".
Proof.
  unfold Objects.createdAt.
  destruct (created_at (Objects.data o)) as [[|c s]|]; cbn; split;
    intros H; try discriminate; try reflexivity; auto.
  destruct H; discriminate.
Qed.

Example strip_paragraphs_example :
  Objects.strip_paragraphs "<p>Remote</p><p>Full-time <i>only</i></p>"
  = "RemoteFull-time <i>only</i>".
Proof. reflexivity. Qed.

(** C10. [commentText] is defined on every comment object, built from any
    raw record, and is always a string: with no [comment_text] in the
    record it is the empty string (the decoder mapping the empty string to
    itself), and with a [comment_text] it is the entity-decoded text with
    the [<p>] and [</p>] marks removed. *)
Theorem commentText_total (unescape : string -> string) (hit : Hit) (d : bool)
        (w : World) :
  unescape "" = "" ->
  exists o w',
    Objects.CommentObject_new hit d w = (Normal o, w')
    /\ Objects.data o = rest hit
    /\ (comment_text (rest hit) = None -> Objects.commentText unescape o = "")
    /\ (forall text,
          comment_text (rest hit) = Some text ->
          Objects.commentText unescape o = Objects.strip_paragraphs (unescape text)).
Proof.
  intros Hempty.
  destruct (subclass_new_spec Objects.CommentObject "Comment" hit d w)
    as (o & w' & E & _ & _ & (_ & _ & _ & Hd)).
  exists o, w'. split; [exact E|]. split; [exact Hd|].
  unfold Objects.commentText, Objects.unescapeHtml. rewrite Hd. split.
  - intros ->. cbn. now rewrite Hempty.
  - intros text ->. reflexivity.
Qed.

Lemma commentText_total_witness :
  (exists o w',
     Objects.CommentObject_new (example_comment None None) false (example_world [])
     = (Normal o, w')
     /\ Objects.commentText unescape_basic o = "")
  /\ (exists o w',
        Objects.CommentObject_new
          (example_comment None (Some "<p>Acme &amp; Co | x &lt; y</p><p>Remote</p>"))
          false (example_world [])
        = (Normal o, w')
        /\ Objects.commentText unescape_basic o = "Acme & Co | x < yRemote").
Proof.
  split.
  - destruct (commentText_total unescape_basic (example_comment None None) false
                (example_world []) eq_refl) as (o & w' & E & _ & H & _).
    exists o, w'. split; [exact E | exact (H eq_refl)].
  - destruct (commentText_total unescape_basic
                (example_comment None (Some "<p>Acme &amp; Co | x &lt; y</p><p>Remote</p>"))
                false (example_world []) eq_refl) as (o & w' & E & _ & _ & H).
    exists o, w'. split; [exact E|]. rewrite (H _ eq_refl). reflexivity.
Defined.

(* ================================================================== *)
(** * Further properties of the code *)

(** ** [buildSearchParams]: every key *)

Ltac destruct_presence params :=
  destruct (truthy (query params)), (nonempty (tags params)),
    (nonempty (numericFilters params)), (nonempty (optionalWords params)),
    (page params), (truthy (filters params)), (hitsPerPage params).

Lemma buildSearchParams_get_query (params : SearchParams) :
  URLSearchParams_get (buildSearchParams_entries params) "query"
  = if truthy (query params) then query params else None.
Proof.
  rewrite buildSearchParams_entries_eq.
  destruct (query params) as [[|c q]|];
    destruct (nonempty (tags params)),
      (nonempty (numericFilters params)), (nonempty (optionalWords params)),
      (page params), (truthy (filters params)), (hitsPerPage params);
    reflexivity.
Qed.

Lemma buildSearchParams_get_optionalWords (params : SearchParams) :
  URLSearchParams_get (buildSearchParams_entries params) "optionalWords"
  = if nonempty (optionalWords params)
    then Some (Array_join " " (nullish (optionalWords params) []))
    else None.
Proof.
  rewrite buildSearchParams_entries_eq. destruct_presence params; reflexivity.
Qed.

Lemma buildSearchParams_get_page (params : SearchParams) :
  URLSearchParams_get (buildSearchParams_entries params) "page"
  = option_map Number_toString (page params).
Proof.
  rewrite buildSearchParams_entries_eq. destruct_presence params; reflexivity.
Qed.

Lemma buildSearchParams_get_hitsPerPage (params : SearchParams) :
  URLSearchParams_get (buildSearchParams_entries params) "hitsPerPage"
  = option_map Number_toString (hitsPerPage params).
Proof.
  rewrite buildSearchParams_entries_eq. destruct_presence params; reflexivity.
Qed.

Lemma URLSearchParams_get_app (sp sp' : URLSearchParams) (name : string) :
  URLSearchParams_get (sp ++ sp')%list name
  = match URLSearchParams_get sp name with
    | Some v => Some v
    | None => URLSearchParams_get sp' name
    end.
Proof.
  induction sp as [|[k v] sp IH]; [reflexivity|].
  cbn. destruct (String.eqb k name); [reflexivity | exact IH].
Qed.

Lemma URLSearchParams_get_optional (b : bool) (k v name : string) :
  k <> name ->
  URLSearchParams_get (if b then [(k, v)] else []) name = None.
Proof.
  intros H. apply String.eqb_neq in H. destruct b; cbn; [now rewrite H | reflexivity].
Qed.

Lemma URLSearchParams_get_optional_number (n : option Z) (k name : string) :
  k <> name ->
  URLSearchParams_get
    (match n with Some z => [(k, Number_toString z)] | None => [] end) name = None.
Proof.
  intros H. apply String.eqb_neq in H. destruct n; cbn; [now rewrite H | reflexivity].
Qed.

(** A key that [buildSearchParams] does not know is not in its output. *)
Lemma buildSearchParams_get_unknown (params : SearchParams) (name : string) :
  ~ In name buildSearchParams_keys ->
  URLSearchParams_get (buildSearchParams_entries params) name = None.
Proof.
  intros H. unfold buildSearchParams_keys in H. cbn in H.
  rewrite buildSearchParams_entries_eq.
  rewrite !URLSearchParams_get_app.
  rewrite !URLSearchParams_get_optional, !URLSearchParams_get_optional_number
    by (intros E; apply H; rewrite <- E; tauto).
  cbn [URLSearchParams_get].
  destruct (String.eqb_spec "restrictSearchableAttributes" name) as [E|E];
    [|reflexivity].
  exfalso. apply H. rewrite <- E. tauto.
Qed.

(** X1. What the receiver of the query string reads under each key.  An
    option is sent exactly when its presence test passes: [query] and
    [filters] when they are non-empty strings, [tags], [numericFilters] and
    [optionalWords] when they are non-empty lists, [page] and [hitsPerPage]
    whenever they are defined, zero included.  The values come back byte
    for byte, whatever characters they hold, and no key outside the eight
    that the builder knows is ever in the output. *)
Theorem buildSearchParams_fields (params : SearchParams) :
  let sent := URLSearchParams_parse (buildSearchParams params) in
  URLSearchParams_get sent "query"
  = (if truthy (query params) then query params else None)
  /\ URLSearchParams_get sent "tags"
     = (if nonempty (tags params)
        then Some (Array_join "," (map TagItem_toString (nullish (tags params) [])))
        else None)
  /\ URLSearchParams_get sent "numericFilters"
     = (if nonempty (numericFilters params)
        then Some (Array_join "," (nullish (numericFilters params) []))
        else None)
  /\ URLSearchParams_get sent "optionalWords"
     = (if nonempty (optionalWords params)
        then Some (Array_join " " (nullish (optionalWords params) []))
        else None)
  /\ URLSearchParams_get sent "page" = option_map Number_toString (page params)
  /\ URLSearchParams_get sent "filters"
     = (if truthy (filters params) then filters params else None)
  /\ URLSearchParams_get sent "hitsPerPage"
     = option_map Number_toString (hitsPerPage params)
  /\ (forall name,
        ~ In name buildSearchParams_keys -> URLSearchParams_get sent name = None).
Proof.
  cbv zeta. rewrite buildSearchParams_parse.
  split; [apply buildSearchParams_get_query|].
  split; [apply buildSearchParams_get_tags|].
  split; [apply buildSearchParams_get_numericFilters|].
  split; [apply buildSearchParams_get_optionalWords|].
  split; [apply buildSearchParams_get_page|].
  split; [apply buildSearchParams_get_filters|].
  split; [apply buildSearchParams_get_hitsPerPage|].
  apply buildSearchParams_get_unknown.
Qed.

(** X2. The keys of the query string come in one fixed order (query, tags,
    numericFilters, optionalWords, page, filters, hitsPerPage,
    restrictSearchableAttributes, some of them left out), no key comes
    twice, and at least one pair is always there. *)
Theorem buildSearchParams_key_order (params : SearchParams) :
  let keys := map fst (URLSearchParams_parse (buildSearchParams params)) in
  is_subsequence keys buildSearchParams_keys = true
  /\ NoDup keys
  /\ keys <> [].
Proof.
  cbv zeta. rewrite buildSearchParams_parse, buildSearchParams_entries_eq.
  destruct_presence params; cbn;
    (split; [reflexivity|]);
    (split; [|discriminate]);
    repeat constructor; cbn; intuition discriminate.
Qed.

(** ** [HNSearchClient.search]: what the request holds *)


(** X4. [sortByDate] chooses the endpoint and nothing else: the URL of the
    request is the base URL, then [/search] when the caller sets
    [sortByDate] to false and [/search_by_date] otherwise, then [?] and the
    query; the query holds no [sortByDate] key. *)
Theorem search_endpoint (this : HNSearchClient.t) (params : SearchParams) :
  HNSearchClient.url this params
  = HNSearchClient.baseUrl this
    ++ (match sortByDate params with
        | Some false => "/search?"
        | Some true | None => "/search_by_date?"
        end)
    ++ buildSearchParams (HNSearchClient.searchParams params)
  /\ URLSearchParams_get
       (URLSearchParams_parse (buildSearchParams (HNSearchClient.searchParams params)))
       "sortByDate" = None.
Proof.
  split.
  - unfold HNSearchClient.url, HNSearchClient.endpoint. cbn.
    destruct (sortByDate params) as [[|]|]; reflexivity.
  - rewrite buildSearchParams_parse. apply buildSearchParams_get_unknown.
    cbn. intuition discriminate.
Qed.

(** ** [HNSearchClient.search]: one run, in full *)

Lemma when_console_log_lines (b : bool) (line : string) (w : World) :
  exists w',
    when b (console_log line) w = (Normal tt, w')
    /\ same_network w w'
    /\ console w' = (console w ++ (if b then [line] else []))%list.
Proof.
  destruct b; cbn; eexists; (split; [reflexivity|]); split;
    try (now repeat split); cbn; now rewrite ?app_nil_r.
Qed.

Lemma subclass_new_run (c : Objects.ObjectClass) (name : string)
      (hit : Hit) (d : bool) (w : World) :
  exists w',
    Objects.subclass_new c name hit d w
    = (Normal (Objects.mk c d (filterHighlightedFields (_highlightResult hit))
                 (_tags hit) (rest hit)), w')
    /\ same_network w w'
    /\ console w'
       = (console w
          ++ (if d
              then [("[DEBUG OBJ] " ++ name ++ " " ++ objectID (rest hit))%string]
              else []))%list.
Proof.
  unfold Objects.subclass_new, Objects.HitObject_new, Objects.reportCreateDebug.
  unfold bind, ret. cbn.
  destruct d; cbn; eexists; (split; [reflexivity|]); split;
    try (now repeat split); cbn; now rewrite ?app_nil_r.
Qed.

Lemma hit_to_object_run (this : HNSearchClient.t) (hit : Hit) (w : World) :
  exists w',
    HNSearchClient.hit_to_object this hit w
    = (Normal (object_from_hit (HNSearchClient.objDebug this) hit), w')
    /\ same_network w w'
    /\ console w'
       = (console w ++ object_debug_lines (HNSearchClient.objDebug this) hit)%list.
Proof.
  unfold HNSearchClient.hit_to_object, object_from_hit, object_debug_lines,
    class_of_tags.
  repeat match goal with
         | |- context [if Array_includes ?l ?x then _ else _] =>
             destruct (Array_includes l x)
         end;
    try apply subclass_new_run.
  exists w. unfold Objects.HitObject_new, ret.
  split; [reflexivity|]. split; [apply same_network_refl|].
  destruct (HNSearchClient.objDebug this); now rewrite app_nil_r.
Qed.

Lemma Array_map_hit_to_object_run (this : HNSearchClient.t) (hs : list Hit)
      (w : World) :
  exists w',
    Array_map (HNSearchClient.hit_to_object this) hs w
    = (Normal (map (object_from_hit (HNSearchClient.objDebug this)) hs), w')
    /\ same_network w w'
    /\ console w'
       = (console w
          ++ flat_map (object_debug_lines (HNSearchClient.objDebug this)) hs)%list.
Proof.
  revert w. induction hs as [|h hs IH]; intros w.
  - exists w. split; [reflexivity|]. split; [apply same_network_refl|].
    cbn. now rewrite app_nil_r.
  - destruct (hit_to_object_run this h w) as (w1 & E1 & F1 & C1).
    destruct (IH w1) as (w2 & E2 & F2 & C2).
    exists w2. split.
    + cbn [Array_map map]. unfold bind at 1. rewrite E1.
      unfold bind at 1. rewrite E2. reflexivity.
    + split; [eapply same_network_trans; eassumption|].
      rewrite C2, C1. cbn [flat_map]. now rewrite app_assoc.
Qed.

(** One run of [search], in full: its outcome, its request, the answer it
    takes and the lines it writes. *)
Lemma search_run_full (VERSION : string) (this : HNSearchClient.t)
      (params : SearchParams) (init : RequestInit) (w : World) :
  exists w',
    HNSearchClient.search VERSION this params init w
    = (search_outcome (HNSearchClient.objDebug this) (pending w), w')
    /\ requests w' =
       (requests w ++ [mkRequest (HNSearchClient.url this params)
                         (HNSearchClient.with_userAgent VERSION init)])%list
    /\ pending w' = tl (pending w)
    /\ clock w' = clock w
    /\ console w'
       = (console w
          ++ search_console_lines this (HNSearchClient.url this params) (pending w))%list.
Proof.
  unfold HNSearchClient.search, search_outcome, search_console_lines,
    debug_request_line, debug_response_line, debug_error_line.
  destruct (when_console_log_lines (HNSearchClient.debug this)
              ("[DEBUG REQ] " ++ HNSearchClient.url this params) w)
    as (w1 & E1 & (C1 & P1 & R1) & L1).
  unfold bind at 1. rewrite E1.
  unfold bind at 1. unfold fetch at 1. rewrite P1, R1, C1.
  destruct (pending w) as [|[|r] ps]; cbn [tl];
    try (eexists; split; [reflexivity|];
         cbn [console requests pending clock]; rewrite L1, app_nil_r;
         now repeat split).
  destruct (ok r); cbn [negb].
  - unfold Response_json. destruct (json r) as [res|].
    + rewrite bind_ret. unfold bind at 1.
      match goal with
      | |- context [when ?b (console_log ?l) ?w0] =>
          destruct (when_console_log_lines b l w0) as (w2 & E2 & (C2 & P2 & R2) & L2)
      end.
      rewrite E2.
      destruct (Array_map_hit_to_object_run this (hits res) w2)
        as (w3 & E3 & (C3 & P3 & R3) & L3).
      unfold bind at 1. rewrite E3. unfold ret.
      eexists. split; [reflexivity|].
      rewrite C3, P3, R3, C2, P2, R2, L3, L2.
      cbn [console requests pending clock]. rewrite L1.
      repeat split. now rewrite !app_assoc.
    + eexists. split; [reflexivity|].
      cbn [console requests pending clock]. rewrite L1, app_nil_r.
      now repeat split.
  - unfold bind at 1.
    match goal with
    | |- context [when ?b (console_log ?l) ?w0] =>
        destruct (when_console_log_lines b l w0) as (w2 & E2 & (C2 & P2 & R2) & L2)
    end.
    rewrite E2. unfold throw.
    eexists. split; [reflexivity|].
    rewrite C2, P2, R2, L2.
    cbn [console requests pending clock]. rewrite L1.
    repeat split. now rewrite !app_assoc.
Qed.



Lemma flat_map_object_debug_lines_off (hs : list Hit) :
  flat_map (object_debug_lines false) hs = [].
Proof. induction hs as [|h hs IH]; [reflexivity | exact IH]. Qed.

(** X5. One call of [search] is one call of [fetch], however it ends (a
    result, an HTTP error, a network failure, a body that is not JSON): the
    log of requests grows by the one request for the URL of the parameters,
    one answer of the network is taken, and the clock is not touched. *)
Theorem search_one_request (VERSION : string) (this : HNSearchClient.t)
        (params : SearchParams) (init : RequestInit) (w : World) :
  let w' := snd (HNSearchClient.search VERSION this params init w) in
  requests w' =
    (requests w ++ [mkRequest (HNSearchClient.url this params)
                      (HNSearchClient.with_userAgent VERSION init)])%list
  /\ pending w' = tl (pending w)
  /\ clock w' = clock w.
Proof.
  destruct (search_run_full VERSION this params init w) as (w' & E & R & P & C & _).
  rewrite E. cbn. now repeat split.
Qed.


(** X7. When the answer is [ok] and its body is JSON, [search] resolves: the
    metadata are those of the envelope, and [data] holds one object for each
    raw hit, in the order of the hits, each with the tags and the fields of
    its hit, the highlights of its hit whose match level is not ["none"],
    and the client's [objDebug]. *)
Theorem search_result_in_order (VERSION : string) (this : HNSearchClient.t)
        (params : SearchParams) (init : RequestInit) (w : World)
        (r : Response) (ps : list FetchResult) (res : AlgoliaResponse) :
  pending w = Responded r :: ps ->
  ok r = true ->
  json r = Some res ->
  exists resp w',
    HNSearchClient.search VERSION this params init w = (Normal resp, w')
    /\ HNSearchClient.meta resp
       = HNSearchClient.mkMeta (res_hitsPerPage res) (nbHits res) (nbPages res)
           (res_page res) (processingTimeMS res) (serverTimeMS res)
    /\ map Objects.data (HNSearchClient.data resp) = map rest (hits res)
    /\ map Objects.tags (HNSearchClient.data resp) = map _tags (hits res)
    /\ map Objects.highlight (HNSearchClient.data resp)
       = map (fun hit => filterHighlightedFields (_highlightResult hit)) (hits res)
    /\ Forall (fun o => Objects.debug o = HNSearchClient.objDebug this)
         (HNSearchClient.data resp).
Proof.
  intros Hp Hok Hj.
  destruct (search_run_full VERSION this params init w) as (w' & E & _).
  rewrite Hp in E. cbn [search_outcome] in E. rewrite Hok, Hj in E.
  eexists. exists w'. split; [exact E|]. cbn [HNSearchClient.meta HNSearchClient.data].
  split; [reflexivity|].
  rewrite !map_map. cbn.
  repeat split. apply Forall_forall. intros o Ho.
  apply in_map_iff in Ho as (h & <- & _). reflexivity.
Qed.

Lemma search_result_in_order_witness :
  exists resp w',
    HNSearchClient.search "1.0.0" (HackerNewsClient.searchClient example_client)
      SearchParams_empty RequestInit_empty
      (example_world
         [Responded (mkResponse true 200 "OK"
                       (Some (example_envelope
                                [example_comment None None; example_story])))])
    = (Normal resp, w')
    /\ map Objects.type (HNSearchClient.data resp) = ["comment"; "story"]
    /\ map Objects.data (HNSearchClient.data resp)
       = [example_comment_data None None; example_story_data].
Proof.
  destruct (search_result_in_order "1.0.0"
              (HackerNewsClient.searchClient example_client)
              SearchParams_empty RequestInit_empty
              (example_world
                 [Responded (mkResponse true 200 "OK"
                               (Some (example_envelope
                                        [example_comment None None; example_story])))])
              _ _ _ eq_refl eq_refl eq_refl)
    as (resp & w' & E & _ & D & _).
  exists resp, w'. split; [exact E|]. split; [|exact D].
  vm_compute in E. injection E as <- _. reflexivity.
Defined.

(** X8. [search] resolves only on an answer that is [ok] and has a JSON
    body: with no answer, a network failure, a status that is not [ok] or a
    body that is not JSON there is no result, and a result has as many
    objects as the envelope has hits. *)
Theorem search_resolves_only_on_ok_json (VERSION : string) (this : HNSearchClient.t)
        (params : SearchParams) (init : RequestInit) (w w' : World)
        (resp : HNSearchClient.HNSearchClientSearchResponse) :
  HNSearchClient.search VERSION this params init w = (Normal resp, w') ->
  exists r ps res,
    pending w = Responded r :: ps
    /\ ok r = true
    /\ json r = Some res
    /\ List.length (HNSearchClient.data resp) = List.length (hits res).
Proof.
  intros H.
  destruct (search_run_full VERSION this params init w) as (w1 & E & _).
  rewrite H in E. injection E as E _.
  unfold search_outcome in E.
  destruct (pending w) as [|[|r] ps]; try discriminate E.
  destruct (ok r) eqn:Hok; [|discriminate E].
  destruct (json r) as [res|] eqn:Hj; [|discriminate E].
  injection E as ->. exists r, ps, res.
  repeat split; try assumption. cbn. apply length_map.
Qed.

Lemma search_resolves_only_on_ok_json_witness :
  exists r ps res,
    pending (example_world
               [Responded (mkResponse true 200 "OK" (Some (example_envelope [example_story])))])
    = Responded r :: ps
    /\ ok r = true
    /\ json r = Some res
    /\ List.length (hits res) = 1%nat.
Proof.
  destruct (search_resolves_only_on_ok_json "1.0.0"
              (HackerNewsClient.searchClient example_client)
              SearchParams_empty RequestInit_empty
              (example_world
                 [Responded (mkResponse true 200 "OK"
                               (Some (example_envelope [example_story])))])
              _ _ eq_refl) as (r & ps & res & Hp & Hok & Hj & Hl).
  exists r, ps, res. repeat split; try assumption.
  rewrite <- Hl. reflexivity.
Defined.

(** X9. A client built with [debug] and [objDebug] off (the default) writes
    nothing to the console, however the search ends. *)
Theorem search_silent_without_debug (VERSION : string) (baseUrl : string)
        (params : SearchParams) (init : RequestInit) (w : World) :
  console (snd (HNSearchClient.search VERSION (HNSearchClient.mk baseUrl false false)
                  params init w))
  = console w
  /\ HNSearchClient.new (HNSearchClient.mkOptions None None None)
     = HNSearchClient.mk "https://hn.algolia.com/api/v1" false false.
Proof.
  split; [|reflexivity].
  destruct (search_run_full VERSION (HNSearchClient.mk baseUrl false false)
              params init w) as (w' & E & _ & _ & _ & L).
  rewrite E. cbn [snd]. rewrite L.
  unfold search_console_lines. cbn [HNSearchClient.debug HNSearchClient.objDebug].
  destruct (pending w) as [|[|r] ps]; cbn; try apply app_nil_r.
  destruct (ok r); [|apply app_nil_r].
  destruct (json r) as [res|]; [|apply app_nil_r].
  rewrite flat_map_object_debug_lines_off. apply app_nil_r.
Qed.

(** X10. The flag [debug] changes nothing but the console: with it on or
    off, [search] makes the same request, takes the same answer and ends
    with the same result or error. *)
Theorem search_debug_only_logs (VERSION : string) (baseUrl : string)
        (debug debug' objDebug : bool)
        (params : SearchParams) (init : RequestInit) (w : World) :
  let run1 := HNSearchClient.search VERSION (HNSearchClient.mk baseUrl debug objDebug)
                params init w in
  let run2 := HNSearchClient.search VERSION (HNSearchClient.mk baseUrl debug' objDebug)
                params init w in
  fst run1 = fst run2
  /\ requests (snd run1) = requests (snd run2)
  /\ pending (snd run1) = pending (snd run2)
  /\ clock (snd run1) = clock (snd run2).
Proof.
  destruct (search_run_full VERSION (HNSearchClient.mk baseUrl debug objDebug)
              params init w) as (w1 & E1 & R1 & P1 & C1 & _).
  destruct (search_run_full VERSION (HNSearchClient.mk baseUrl debug' objDebug)
              params init w) as (w2 & E2 & R2 & P2 & C2 & _).
  cbv zeta. rewrite E1, E2. cbn [fst snd].
  split; [reflexivity|].
  split; [rewrite R1, R2; reflexivity|].
  split; congruence.
Qed.

(** ** The facade: the methods that fill in [tags] *)

(** Replacing [tags] changes the [tags] of the query and no other key. *)
Lemma with_tags_query (params : SearchParams) (T : list TagItem) (name : string) :
  name <> "tags" ->
  URLSearchParams_get
    (buildSearchParams_entries
       (HNSearchClient.searchParams (HackerNewsClient.with_tags params T))) name
  = URLSearchParams_get
      (buildSearchParams_entries (HNSearchClient.searchParams params)) name.
Proof.
  intros H. apply not_eq_sym in H.
  rewrite !buildSearchParams_entries_eq.
  unfold HNSearchClient.searchParams, HackerNewsClient.with_tags,
    restrictSearchableAttributes_value.
  cbn [query tags numericFilters page hitsPerPage sortByDate optionalWords filters
       restrictSearchableAttributes].
  rewrite !URLSearchParams_get_app.
  rewrite !(URLSearchParams_get_optional _ "tags") by exact H.
  reflexivity.
Qed.

Lemma facade_call (VERSION : string) (this : HackerNewsClient.t)
      (params : SearchParams) (init : RequestInit) (w : World)
      (t : TagItem) (T : list TagItem) :
  facade_call_sends VERSION this params init w
    (HNSearchClient.search VERSION (HackerNewsClient.searchClient this)
       (HackerNewsClient.with_tags params (t :: T)) init w)
    (Array_join "," (map TagItem_toString (t :: T))).
Proof.
  exists (HackerNewsClient.with_tags params (t :: T)).
  split; [reflexivity|].
  split.
  { destruct (search_run_full VERSION (HackerNewsClient.searchClient this)
                (HackerNewsClient.with_tags params (t :: T)) init w)
      as (w' & E & R & _).
    rewrite E. exact R. }
  rewrite !buildSearchParams_parse.
  split; [rewrite buildSearchParams_get_tags; reflexivity|].
  split; [intros name H; rewrite ?buildSearchParams_parse; now apply with_tags_query|].
  reflexivity.
Qed.

(** X11. The methods [comments], [askHN], [showHN], [polls], [jobs] and
    [newest] are each one search, whose query holds under [tags] the token
    of the content type ([(story,poll)] for [newest]) in place of any tags
    of the caller, and under every other key what [search] sends for the
    caller's parameters. *)
Theorem facade_content_type_methods (VERSION : string) (this : HackerNewsClient.t)
        (params : SearchParams) (init : RequestInit) (w : World) :
  facade_call_sends VERSION this params init w
    (HackerNewsClient.comments VERSION this params init w) "comment"
  /\ facade_call_sends VERSION this params init w
       (HackerNewsClient.askHN VERSION this params init w) "ask_hn"
  /\ facade_call_sends VERSION this params init w
       (HackerNewsClient.showHN VERSION this params init w) "show_hn"
  /\ facade_call_sends VERSION this params init w
       (HackerNewsClient.polls VERSION this params init w) "poll"
  /\ facade_call_sends VERSION this params init w
       (HackerNewsClient.jobs VERSION this params init w) "job"
  /\ facade_call_sends VERSION this params init w
       (HackerNewsClient.newest VERSION this params init w) "(story,poll)".
Proof.
  repeat split; apply facade_call.
Qed.

(** X12. The methods of one user are each one search whose [tags] joins the
    content types with the author tag of the user name, as it is given:
    [(story,comment,poll),author_NAME] for [userAll], [comment,author_NAME]
    for [userThreads] and [(story,poll),author_NAME] for [userSubmitted];
    every other key is what [search] sends for the caller's parameters. *)
Theorem facade_user_methods (VERSION : string) (this : HackerNewsClient.t)
        (userName : string) (params : SearchParams) (init : RequestInit) (w : World) :
  facade_call_sends VERSION this params init w
    (HackerNewsClient.userAll VERSION this userName params init w)
    ("(story,comment,poll),author_" ++ userName)
  /\ facade_call_sends VERSION this params init w
       (HackerNewsClient.userThreads VERSION this userName params init w)
       ("comment,author_" ++ userName)
  /\ facade_call_sends VERSION this params init w
       (HackerNewsClient.userSubmitted VERSION this userName params init w)
       ("(story,poll),author_" ++ userName).
Proof.
  repeat split; apply facade_call.
Qed.

(** X13. [commentsToStory] is one search for the comments of the story:
    its [tags] is [comment,story_ID], followed by [,author_NAME] exactly
    when a user name is given and not empty; the user name is no key of the
    query, and every other key is what [search] sends for the rest of the
    parameters. *)
Theorem commentsToStory_request (VERSION : string) (this : HackerNewsClient.t)
        (storyId : Z) (params : HackerNewsClient.CommentsToStoryParams)
        (init : RequestInit) (w : World) :
  facade_call_sends VERSION this (HackerNewsClient.search_params params) init w
    (HackerNewsClient.commentsToStory VERSION this storyId params init w)
    ("comment,story_" ++ Number_toString storyId
     ++ match HackerNewsClient.userName params with
        | Some (String c name) => ",author_" ++ String c name
        | Some EmptyString | None => ""
        end)
  /\ URLSearchParams_get
       (URLSearchParams_parse
          (buildSearchParams
             (HNSearchClient.searchParams
                (HackerNewsClient.with_tags (HackerNewsClient.search_params params)
                   (HackerNewsClient.commentsToStory_tags storyId
                      (HackerNewsClient.userName params))))))
       "userName" = None.
Proof.
  split.
  - unfold HackerNewsClient.commentsToStory, HackerNewsClient.commentsToStory_tags.
    destruct (HackerNewsClient.userName params) as [[|c name]|];
      cbn [truthy nullish app].
    + replace ("comment,story_" ++ Number_toString storyId ++ "")
        with (Array_join ","
                (map TagItem_toString [ATag Tags.COMMENT; ATag (Tags.story storyId)]))
        by (cbn; now rewrite string_append_nil_r).
      apply facade_call.
    + replace ("comment,story_" ++ Number_toString storyId ++ ",author_" ++ String c name)
        with (Array_join ","
                (map TagItem_toString
                   [ATag Tags.COMMENT; ATag (Tags.story storyId);
                    ATag (Tags.author (String c name))])).
      * apply facade_call.
      * cbn. unfold createStoryTag, createAuthorTag.
        cbn. reflexivity.
    + replace ("comment,story_" ++ Number_toString storyId ++ "")
        with (Array_join ","
                (map TagItem_toString [ATag Tags.COMMENT; ATag (Tags.story storyId)]))
        by (cbn; now rewrite string_append_nil_r).
      apply facade_call.
  - rewrite buildSearchParams_parse. apply buildSearchParams_get_unknown.
    cbn. intuition discriminate.
Qed.

(** ** The facade: failures of [whoIsHiring] *)

(** X14. When the first lookup of [whoIsHiring] fails, whatever the failure
    (no answer, a status that is not [ok], a body that is not JSON),
    [whoIsHiring] fails with the same error: [fetch] has been called once,
    for the lookup, and the request for the comments is never made. *)
Theorem whoIsHiring_first_failure (VERSION : string) (this : HackerNewsClient.t)
        (params : SearchParams) (init : RequestInit) (w : World) (e : JsError) :
  fst (HNSearchClient.search VERSION (HackerNewsClient.searchClient this)
         HackerNewsClient.whoIsHiring_story_params RequestInit_empty w)
  = Throw e ->
  exists w',
    HackerNewsClient.whoIsHiring VERSION this params init w = (Throw e, w')
    /\ requests w'
       = (requests w
          ++ [mkRequest
                (HNSearchClient.url (HackerNewsClient.searchClient this)
                   HackerNewsClient.whoIsHiring_story_params)
                (HNSearchClient.with_userAgent VERSION RequestInit_empty)])%list
    /\ pending w' = tl (pending w).
Proof.
  intros H.
  destruct (search_run_full VERSION (HackerNewsClient.searchClient this)
              HackerNewsClient.whoIsHiring_story_params RequestInit_empty w)
    as (w' & E & R & P & _).
  rewrite E in H. cbn [fst] in H.
  exists w'. unfold HackerNewsClient.whoIsHiring, bind. rewrite E, H.
  now repeat split.
Qed.

Lemma whoIsHiring_first_failure_witness :
  exists w',
    HackerNewsClient.whoIsHiring "1.0.0" example_client SearchParams_empty
      RequestInit_empty
      (example_world
         [Responded (mkResponse false 429 "Too Many Requests" None);
          Responded (mkResponse true 200 "OK"
                       (Some (example_envelope [example_comment None None])))])
    = (Throw (Error "HTTP error! status: 429"), w')
    /\ List.length (requests w') = 1%nat
    /\ List.length (pending w') = 1%nat.
Proof.
  destruct (whoIsHiring_first_failure "1.0.0" example_client SearchParams_empty
              RequestInit_empty
              (example_world
                 [Responded (mkResponse false 429 "Too Many Requests" None);
                  Responded (mkResponse true 200 "OK"
                               (Some (example_envelope [example_comment None None])))])
              (Error "HTTP error! status: 429") eq_refl) as (w' & E & R & P).
  exists w'. split; [exact E|]. split; [rewrite R | rewrite P]; reflexivity.
Defined.

(** ** [filterHighlightedFields] *)

(** X15. [filterHighlightedFields] keeps exactly the fields whose match
    level is not ["none"], in their order: a field is in the result if and
    only if it is in the input with another match level; the result of a
    record without such fields is the record itself, so filtering twice is
    filtering once; and no field is added. *)
Theorem filterHighlightedFields_spec (highlights : JsRecord HighlightResult) :
  (forall field,
     In field (filterHighlightedFields highlights)
     <-> In field highlights /\ matchLevel (snd field) <> "none")
  /\ filterHighlightedFields (filterHighlightedFields highlights)
     = filterHighlightedFields highlights
  /\ (List.length (filterHighlightedFields highlights) <= List.length highlights)%nat
  /\ (Forall (fun field => matchLevel (snd field) <> "none") highlights ->
      filterHighlightedFields highlights = highlights).
Proof.
  unfold filterHighlightedFields. split; [|split; [|split]].
  - intros field. rewrite filter_In, negb_true_iff. split.
    + intros [H E]. split; [exact H|]. now apply String.eqb_neq.
    + intros [H E]. split; [exact H|]. now apply String.eqb_neq.
  - induction highlights as [|f hs IH]; [reflexivity|].
    cbn. destruct (String.eqb (matchLevel (snd f)) "none") eqn:E; cbn;
      [exact IH | rewrite E; cbn; now rewrite IH].
  - apply filter_length_le.
  - intros H. induction H as [|f hs Hf _ IH]; [reflexivity|].
    cbn. apply String.eqb_neq in Hf. rewrite Hf. cbn. now rewrite IH.
Qed.

(** ** The tags of a raw record and the class of its object *)

(** X16. The object that [search] builds from a raw record has one of the
    six types, and its type, when it is not ["hit"], is one of the object's
    own tags; its type is ["hit"] only when none of the five type tags is
    among its tags. *)
Theorem object_type_is_own_tag (this : HNSearchClient.t) (hit : Hit) (w : World) :
  exists o w',
    HNSearchClient.hit_to_object this hit w = (Normal o, w')
    /\ Objects.tags o = _tags hit
    /\ In (Objects.type o) ("hit" :: type_tags)
    /\ (Objects.type o = "hit" \/ In (Objects.type o) (Objects.tags o))
    /\ (Objects.type o = "hit" ->
        forall tag, In tag type_tags -> ~ In tag (Objects.tags o)).
Proof.
  destruct (hit_to_object_run this hit w) as (w' & E & _).
  eexists. exists w'. split; [exact E|]. split; [reflexivity|].
  unfold Objects.type, object_from_hit, class_of_tags, type_tags,
    Tags.STORY, Tags.COMMENT, Tags.POLL, Tags.POLLOPT, Tags.JOB.
  cbn [Objects.class Objects.tags].
  destruct (Array_includes (_tags hit) "story") eqn:Hs;
    [|destruct (Array_includes (_tags hit) "comment") eqn:Hc;
      [|destruct (Array_includes (_tags hit) "poll") eqn:Hp;
        [|destruct (Array_includes (_tags hit) "pollopt") eqn:Ho;
          [|destruct (Array_includes (_tags hit) "job") eqn:Hj]]]];
    includes_to_In; cbn [In].
  1-5: split; [tauto|]; split; [now right|]; intros D; discriminate D.
  split; [tauto|]. split; [now left|].
  intros _ tag [<-|[<-|[<-|[<-|[<-|[]]]]]]; assumption.
Qed.

(** X17. Author tags and story tags are never type tags, and they never
    decide the class of an object: a record tagged with one type tag, an
    author tag and a story tag becomes an object of that type, whatever the
    user name and the story id (a comment in story 1 is a comment, not a
    story). *)
Theorem scoped_tags_do_not_classify (this : HNSearchClient.t)
        (highlights : JsRecord HighlightResult) (fields : HitData)
        (username : string) (storyId : Z) (w : World) :
  ~ In (createAuthorTag username) type_tags
  /\ ~ In (createStoryTag storyId) type_tags
  /\ createAuthorTag username <> createStoryTag storyId
  /\ forall tag,
       In tag type_tags ->
       exists o w',
         HNSearchClient.hit_to_object this
           (mkHit highlights [tag; createAuthorTag username; createStoryTag storyId]
              fields) w
         = (Normal o, w')
         /\ Objects.type o = tag.
Proof.
  unfold type_tags, createAuthorTag, createStoryTag,
    Tags.STORY, Tags.COMMENT, Tags.POLL, Tags.POLLOPT, Tags.JOB.
  split; [cbn; intuition discriminate|].
  split; [cbn; intuition discriminate|].
  split; [cbn; discriminate|].
  intros tag Ht.
  match goal with
  | |- context [HNSearchClient.hit_to_object this ?h w] =>
      destruct (hit_to_object_run this h w) as (w' & E & _)
  end.
  eexists. exists w'. split; [exact E|].
  cbn in Ht. destruct Ht as [<-|[<-|[<-|[<-|[<-|[]]]]]]; reflexivity.
Qed.




(** ** The accessors of the objects, continued *)

(** X19. [isRootComment] holds exactly when the parent of the comment is
    its story (the two ids are equal, or both are missing). *)
Theorem isRootComment_iff (o : Objects.t) :
  Objects.isRootComment o = true
  <-> parent_id (Objects.data o) = story_id (Objects.data o).
Proof.
  unfold Objects.isRootComment.
  destruct (parent_id (Objects.data o)) as [p|], (story_id (Objects.data o)) as [s|];
    split; intros H; try discriminate; try reflexivity.
  - apply Z.eqb_eq in H. now subst.
  - injection H as ->. apply Z.eqb_refl.
Qed.

(** X20. The [url] of a story is its raw [url] whenever the record has one,
    the empty string included, and the permalink of the item otherwise.  So
    with [hasExternalUrl] on, [url] is that external URL, and with it off,
    [url] is the permalink or the empty string. *)
Theorem StoryObject_url_cases (o : Objects.t) :
  (forall u, Objects.HitData_url (Objects.data o) = Some u -> Objects.url o = u)
  /\ (Objects.HitData_url (Objects.data o) = None ->
      Objects.url o
      = "https://news.ycombinator.com/item?id=" ++ objectID (Objects.data o))
  /\ (Objects.hasExternalUrl o = true ->
      Objects.HitData_url (Objects.data o) = Some (Objects.url o)
      /\ Objects.url o <> "")
  /\ (Objects.hasExternalUrl o = false ->
      Objects.url o = Objects.permaLink o \/ Objects.url o = "").
Proof.
  unfold Objects.url, Objects.hasExternalUrl, Objects.permaLink, Objects.getPermaLink.
  destruct (Objects.HitData_url (Objects.data o)) as [[|c u]|]; cbn;
    repeat split; intros; try discriminate; try congruence; auto.
Qed.

(** ** [unescapeHtml]: the paragraph marks *)

Lemma strip_paragraphs_step (c : ascii) (r : string) :
  Ascii.eqb c "<" = false ->
  Objects.strip_paragraphs (String c r) = String c (Objects.strip_paragraphs r).
Proof.
  destruct c as [[] [] [] [] [] [] [] []]; intros H; try discriminate H; reflexivity.
Qed.

Lemma strip_paragraphs_app (plain r : string) :
  String_free "<" plain = true ->
  Objects.strip_paragraphs (plain ++ r) = plain ++ Objects.strip_paragraphs r.
Proof.
  induction plain as [|c s IH]; [reflexivity|].
  cbn [String_free]. intros H. apply andb_true_iff in H as [H1 H2].
  apply negb_true_iff in H1.
  change (String c s ++ r) with (String c (s ++ r)).
  rewrite strip_paragraphs_step by exact H1. rewrite IH by exact H2. reflexivity.
Qed.

(** X21. What [unescapeHtml] does after decoding the entities: text with no
    [<] in it is kept as it is, and a [<p>] or [</p>] that follows such text
    is dropped, the rest being treated in the same way; so decoded text
    without any [<] comes out unchanged. *)
Theorem strip_paragraphs_plain_text (unescape : string -> string)
        (plain r text : string) :
  String_free "<" plain = true ->
  String_free "<" (unescape text) = true ->
  Objects.strip_paragraphs plain = plain
  /\ Objects.strip_paragraphs (plain ++ "<p>" ++ r) = plain ++ Objects.strip_paragraphs r
  /\ Objects.strip_paragraphs (plain ++ "</p>" ++ r) = plain ++ Objects.strip_paragraphs r
  /\ Objects.unescapeHtml unescape text = unescape text.
Proof.
  intros H Ht.
  assert (P : forall s, String_free "<" s = true -> Objects.strip_paragraphs s = s).
  { intros s Hs. rewrite <- (string_append_nil_r s) at 1.
    rewrite strip_paragraphs_app by exact Hs. apply string_append_nil_r. }
  split; [now apply P|].
  split; [rewrite strip_paragraphs_app by exact H; reflexivity|].
  split; [rewrite strip_paragraphs_app by exact H; reflexivity|].
  unfold Objects.unescapeHtml. now apply P.
Qed.

Lemma strip_paragraphs_plain_text_witness :
  Objects.strip_paragraphs ("Remote only" ++ "<p>" ++ "Apply by mail</p>")
  = "Remote only" ++ Objects.strip_paragraphs "Apply by mail</p>"
  /\ Objects.unescapeHtml unescape_basic "Tom &amp; Jerry" = "Tom & Jerry".
Proof.
  destruct (strip_paragraphs_plain_text unescape_basic "Remote only"
              "Apply by mail</p>" "Tom &amp; Jerry" eq_refl eq_refl)
    as (_ & H & _ & U).
  split; [exact H | exact U].
Defined.

(** ** The facade: what [frontPage] and [whoIsHiring] pass on *)


(** ** [createdAt], for every record *)

(** X23. [createdAt] is [null] exactly when [created_at] is missing or the
    empty string; any other [created_at] gives the [Date] that [parseISO]
    makes of that very string. *)
Theorem createdAt_null_exactly (parseISO : string -> JsDate) (o : Objects.t) :
  (Objects.createdAt parseISO o = None
   <-> created_at (Objects.data o) = None \/ created_at (Objects.data o) = Some "")
  /\ (forall d,
        Objects.createdAt parseISO o = Some d ->
        exists c s,
          created_at (Objects.data o) = Some (String c s)
          /\ d = parseISO (String c s)).
Proof.
  unfold Objects.createdAt.
  destruct (created_at (Objects.data o)) as [[|c s]|]; cbn; split;
    try (split; intros H; try discriminate H; try reflexivity; auto;
         destruct H as [H|H]; discriminate H);
    intros d H; try discriminate H.
  injection H as <-. now exists c, s.
Qed.
